(** * Dialogue control engine: the grammar machine (dm.ts) and the NLU machine (dm4.ts)

    A shallow embedding of the two XState dialogue machines of the
    repository and of the lexicon helpers they share, with the properties
    of the specification proved (or refuted) on the embedding.

    Modelling conventions.
    - A JavaScript string is a [string]; [toLowerCase] folds the ASCII
      letters, which is what [String.prototype.toLowerCase] does on the
      characters every table of the program is written in.
    - A plain JavaScript object used as a table is a [gmap string _]
      together with the property names it inherits from
      [Object.prototype]: the [in] operator and a property read both walk
      the prototype chain.
    - An exception ([TypeError] on reading a property of [null] or
      [undefined]) is a result [Throw] of the error monad [Res].
    - The effect of an action on the speech actor ([spstRef.send]) is a
      [Command] in the output list of a step. *)

From Stdlib Require Import Ascii String List Bool Arith Lia.
From Stdlib Require QArith.
From stdpp Require Import base option list strings gmap.
Import ListNotations.
Local Open Scope string_scope.
Local Open Scope list_scope.

(** ** JavaScript values used by both machines *)
Module Js.

(** [c.toLowerCase()] for one ASCII character. *)
Definition lowerChar (c : ascii) : ascii :=
  let n := nat_of_ascii c in
  if (65 <=? n)%nat && (n <=? 90)%nat then ascii_of_nat (n + 32) else c.

(** [s.toLowerCase()]. *)
Fixpoint toLowerCase (s : string) : string :=
  match s with
  | EmptyString => EmptyString
  | String c r => String (lowerChar c) (toLowerCase r)
  end.

(** [arr.includes(s)] on an array of strings. *)
Definition includes (arr : list string) (s : string) : bool :=
  bool_decide (s ∈ arr).

(** Truthiness of a string: only the empty string is falsy. *)
Definition truthy (s : string) : bool := negb (String.eqb s "").

(** [a || b] where [a] is a string or [undefined] and [b] a string. *)
Definition orElse (a : option string) (b : string) : string :=
  match a with
  | Some s => if truthy s then s else b
  | None => b
  end.

(** The property names every plain object inherits from
    [Object.prototype]. *)
Definition objectPrototype : list string :=
  [ "constructor"; "__defineGetter__"; "__defineSetter__"; "hasOwnProperty";
    "__lookupGetter__"; "__lookupSetter__"; "isPrototypeOf";
    "propertyIsEnumerable"; "toString"; "valueOf"; "__proto__";
    "toLocaleString" ].

(** The result of the property read [o[k]] on an object literal [o]. *)
Inductive Prop_ (V : Type) : Type :=
| Own (v : V)              (* an entry of the literal *)
| Inherited (k : string)   (* a built-in reached through the prototype *)
| Undefined.
Arguments Own {V} v.
Arguments Inherited {V} k.
Arguments Undefined {V}.

(** [o[k]]. *)
Definition get {V} (o : gmap string V) (k : string) : Prop_ V :=
  match o !! k with
  | Some v => Own v
  | None => if includes objectPrototype k then Inherited k else Undefined
  end.

(** [k in o]. *)
Definition has {V} (o : gmap string V) (k : string) : bool :=
  match get o k with
  | Undefined => false
  | _ => true
  end.

(** [Object.hasOwn(o, k)]: the key is an entry of the literal. *)
Definition hasOwn {V} (o : gmap string V) (k : string) : bool :=
  bool_decide (is_Some (o !! k)).

(** Errors raised by the guards and actions of the machines. *)
Inductive Error : Type := TypeError.

(** The outcome of running a piece of the program: a value, an
    exception, or, for the loop over eventless transitions only, no
    stable state within the bound of the interpreter. *)
Inductive Res (A : Type) : Type :=
| Ok (a : A)
| Throw (e : Error)
| Unsettled.
Arguments Ok {A} a.
Arguments Throw {A} e.
Arguments Unsettled {A}.

#[export] Instance Res_ret : MRet Res := fun A a => Ok a.
#[export] Instance Res_bind : MBind Res := fun A B k m =>
  match m with
  | Ok a => k a
  | Throw e => Throw e
  | Unsettled => Unsettled
  end.

End Js.
Export Js.

(** ** The lexicon: the tables and helpers that dm.ts and dm4.ts both define *)
Module Lexicon.

Record GrammarEntry : Type := mkEntry {
  person : option string;
  day : option string;
  time : option string;
  yesno : option string
}.

Definition onlyPerson (p : string) : GrammarEntry := mkEntry (Some p) None None None.
Definition onlyDay (d : string) : GrammarEntry := mkEntry None (Some d) None None.
Definition onlyTime (t : string) : GrammarEntry := mkEntry None None (Some t) None.
Definition onlyYesno (y : string) : GrammarEntry := mkEntry None None None (Some y).

Definition grammarEntries : list (string * GrammarEntry) :=
  [ ("vlad", onlyPerson "Vladislav Maraev");
    ("aya", onlyPerson "Nayat Astaiza Soriano");
    ("victoria", onlyPerson "Victoria Daniilidou");
    ("monday", onlyDay "Monday");
    ("tuesday", onlyDay "Tuesday");
    ("yes", onlyYesno "Yes");
    ("no", onlyYesno "No");
    ("10", onlyTime "10:00");
    ("11", onlyTime "11:00") ].

Definition grammar : gmap string GrammarEntry := list_to_map grammarEntries.

Definition validDay : list string :=
  ["monday"; "tuesday"; "wednesday"; "thursday"; "friday"; "saturday"; "sunday"].
Definition yesPhrases : list string :=
  ["yes"; "sure"; "of course"; "absolutely"; "indeed"; "aye"].
Definition noPhrases : list string :=
  ["no"; "nope"; "nah"; "negative"; "nay"; "not really"].

(** [utterance.toLowerCase() in grammar] *)
Definition isInGrammar (utterance : string) : bool :=
  Js.has grammar (toLowerCase utterance).

(** [(grammar[utterance.toLowerCase()] || {}).person]: every value a
    property read can give here is an object, hence truthy; the
    built-ins reached through the prototype have no [person]. *)
Definition getPerson (utterance : string) : option string :=
  match Js.get grammar (toLowerCase utterance) with
  | Own e => person e
  | Inherited _ => None
  | Undefined => None
  end.

Definition validateDay (utterance : string) : bool :=
  includes validDay (toLowerCase utterance).

Definition isYes (utterance : string) : bool :=
  includes yesPhrases (toLowerCase utterance).

Definition isNo (utterance : string) : bool :=
  includes noPhrases (toLowerCase utterance).

End Lexicon.
Export Lexicon.

(** ** The part of XState the machines use

    A machine is given by its tables: the transitions of each state on
    each event ([on], the state's own followed by its parent's, which is
    the order XState tries them in), its eventless transitions
    ([always]) and the entry actions of each state.  A transition array
    is resolved first-match; a guard that throws aborts the step. *)
Module XState.
Section Machine.

Context {State Ctx Event Command : Type}.

Definition Guard : Type := Ctx -> Res bool.

Record Transition : Type := mkTransition {
  guard : Guard;
  actions : Ctx -> Res Ctx;
  target : option State
}.

Record Machine : Type := mkMachine {
  on : State -> Event -> list Transition;
  always : State -> list (Guard * State);
  entry : State -> Ctx -> Res (Ctx * list Command)
}.

Record Config : Type := mkConfig { st : State; ctx : Ctx }.

(** The first candidate whose guard holds. *)
Fixpoint select {T} (guardOf : T -> Guard) (ts : list T) (c : Ctx) : Res (option T) :=
  match ts with
  | [] => mret None
  | t :: ts' =>
      b ← guardOf t c;
      if b : bool then mret (Some t) else select guardOf ts' c
  end.

Variable M : Machine.

(** Take eventless transitions from [s], already entered, until none is
    enabled; [out] collects the commands sent so far. *)
Fixpoint settle (fuel : nat) (s : State) (c : Ctx) (out : list Command)
  : Res (Config * list Command) :=
  match fuel with
  | O => Unsettled
  | S fuel' =>
      t ← select fst (always M s) c;
      match t with
      | None => mret (mkConfig s c, out)
      | Some (_, s') =>
          '(c', out') ← entry M s' c;
          settle fuel' s' c' (out ++ out')
      end
  end.

(** No chain of eventless transitions of either machine is longer. *)
Definition bound : nat := 8.

(** The state the eventless transitions of [s] lead to next, if any. *)
Definition eventless (s : State) (c : Ctx) : Res (option State) :=
  t ← select fst (always M s) c;
  match t with
  | Some (_, s') => mret (Some s')
  | None => mret None
  end.

(** A transition with target [s] is taken: the entry actions of [s]
    run, then the eventless transitions. *)
Definition arrive (s : State) (c : Ctx) : Res (Config * list Command) :=
  '(c', out) ← entry M s c;
  settle bound s c' out.

(** One macrostep: the machine in configuration [cfg] receives [ev].
    An event no transition is enabled for is dropped. *)
Definition step (cfg : Config) (ev : Event) : Res (Config * list Command) :=
  t ← select guard (on M (st cfg) ev) (ctx cfg);
  match t with
  | None => mret (cfg, [])
  | Some tr =>
      c1 ← actions tr (ctx cfg);
      match target tr with
      | None => settle bound (st cfg) c1 []
      | Some s' => arrive s' c1
      end
  end.

(** A sequence of events, with the commands of all steps. *)
Fixpoint run (cfg : Config) (evs : list Event) : Res (Config * list Command) :=
  match evs with
  | [] => mret (cfg, [])
  | ev :: evs' =>
      '(cfg', out) ← step cfg ev;
      '(cfg'', out') ← run cfg' evs';
      mret (cfg'', out ++ out')
  end.

(** Shapes of transition the machines are written with. *)
Definition yes : Guard := fun _ => mret true.
Definition goto (s : State) : Transition := mkTransition yes mret (Some s).
Definition gotoIf (g : Guard) (s : State) : Transition := mkTransition g mret (Some s).
Definition assign (f : Ctx -> Ctx) : Transition :=
  mkTransition yes (fun c => mret (f c)) None.

End Machine.
Arguments Transition : clear implicits.
Arguments Machine : clear implicits.
Arguments Config : clear implicits.
Arguments Guard : clear implicits.
End XState.
Import XState.

(** ** Two runs of a machine on contexts that differ in fields the
    machine will not read *)
Module Simulation.
Section Related.

Context {State Ctx Event Command : Type}.
Variable M : Machine State Ctx Event Command.

(** [R s c1 c2]: in state [s] the contexts agree on what is still read. *)
Variable R : State -> Ctx -> Ctx -> Prop.

(** Two outcomes of the same kind, with values related by [Q]. *)
Definition related {A} (Q : A -> A -> Prop) (r1 r2 : Res A) : Prop :=
  match r1, r2 with
  | Ok a, Ok b => Q a b
  | Throw e1, Throw e2 => e1 = e2
  | Unsettled, Unsettled => True
  | _, _ => False
  end.

(** The entry actions of [s] send the same commands and lead to
    contexts that agree in [s]. *)
Definition entering (s : State) (c1 c2 : Ctx) : Prop :=
  related (fun x y => R s (fst x) (fst y) /\ snd x = snd y) (entry M s c1) (entry M s c2).

(** Same state, agreeing contexts, same commands. *)
Definition alike (x y : Config State Ctx * list Command) : Prop :=
  st (fst x) = st (fst y) /\ R (st (fst x)) (ctx (fst x)) (ctx (fst y)) /\ snd x = snd y.

End Related.
End Simulation.

(** ** Events and commands exchanged with the speech actor *)
Module Speech.

(** [Hypothesis] of speechstate. *)
Record Hyp : Type := mkHyp {
  utterance : string;
  confidence : QArith_base.Q
}.

(** An entity of the language-understanding result; the offsets and the
    score it also carries are read nowhere. *)
Record Entity : Type := mkEntity {
  category : string;
  text : string
}.

(** [event.nluValue]: the fields the machine reads. *)
Record NluValue : Type := mkNlu {
  topIntent : string;
  entities : option (list Entity)
}.

Inductive Event : Type :=
| ASRTTS_READY
| CLICK
| DONE
| SPEAK_COMPLETE
| LISTEN_COMPLETE
| RECOGNISED (value : list Hyp) (nluValue : option NluValue)
| ASR_NOINPUT.

Inductive Command : Type :=
| PREPARE
| SPEAK (utterance : string)
| LISTEN
| LISTEN_NLU.

(** A recognition result with one hypothesis. *)
Definition heard (u : string) : list Hyp :=
  [mkHyp u (QArith_base.Qmake 9 10)].

(** The events of one turn in which [u] is recognised: the prompt has
    been spoken, the recogniser reports [u] and stops listening, and
    the answer of the machine has been spoken. *)
Definition turn (u : string) : list Event :=
  [SPEAK_COMPLETE; RECOGNISED (heard u) None; LISTEN_COMPLETE; SPEAK_COMPLETE].

(** A session from the start of the actor: the speech actor gets
    ready, the user clicks, the greeting is spoken, and one turn
    follows for each answer. *)
Definition session (answers : list string) : list Event :=
  [ASRTTS_READY; CLICK; SPEAK_COMPLETE] ++ concat (map turn answers).

End Speech.
Export Speech.

(** ** dm.ts: the grammar machine *)
Module Dm.

(** Child states of the compound states. *)
Module Name.
Inductive child : Type :=
| PromptForName | NoInput | InvalidInput | ValidInput | ValidateInput | Listen.
End Name.
Module Day.
Inductive child : Type :=
| PromptForDay | NoInput | InvalidDay | InvalidInput | ValidInput
| ValidateInput | Listen.
End Day.
(** AskFullDay and AskConfirm have children of the same names. *)
Module YesNo.
Inductive child : Type :=
| PromptForYesNo | NoInput | InvalidYesNo | InvalidInput | WholeDay
| ValidateInput | Listen.
End YesNo.
Module Time.
Inductive child : Type :=
| PromptForTime | NoInput | InvalidTime | InvalidInput | ValidInput
| ValidateInput | Listen.
End Time.

Inductive State : Type :=
| Prepare
| WaitToStart
| Greeting
| AskName (c : Name.child)
| AskDay (c : Day.child)
| AskFullDay (c : YesNo.child)
| AskTime (c : Time.child)
| AskConfirm (c : YesNo.child)
| Done.

(** [DMContext] (the declaration with nullable slots); [spstRef] is
    the actor the commands go to. *)
Record DMContext : Type := mkContext {
  lastResult : option (list Hyp);
  nameResult : option string;
  dayResult : option string;
  timeResult : option string
}.

Definition initialContext : DMContext := mkContext None None None None.

Definition set_lastResult (v : option (list Hyp)) (c : DMContext) : DMContext :=
  mkContext v (nameResult c) (dayResult c) (timeResult c).
Definition set_nameResult (v : option string) (c : DMContext) : DMContext :=
  mkContext (lastResult c) v (dayResult c) (timeResult c).
Definition set_dayResult (v : option string) (c : DMContext) : DMContext :=
  mkContext (lastResult c) (nameResult c) v (timeResult c).
Definition set_timeResult (v : option string) (c : DMContext) : DMContext :=
  mkContext (lastResult c) (nameResult c) (dayResult c) v.

(** [context.lastResult![0].utterance] *)
Definition topUtterance (c : DMContext) : Res string :=
  match lastResult c with
  | Some (h :: _) => Ok (utterance h)
  | Some [] => Throw TypeError
  | None => Throw TypeError
  end.

(** A nullable string inside a template literal. *)
Definition show (v : option string) : string := default "null" v.

(** Targets [#DM.X] and [X] at the top level enter the initial child. *)
Definition toAskName : State := AskName Name.PromptForName.
Definition toAskDay : State := AskDay Day.PromptForDay.
Definition toAskFullDay : State := AskFullDay YesNo.PromptForYesNo.
Definition toAskTime : State := AskTime Time.PromptForTime.
Definition toAskConfirm : State := AskConfirm YesNo.PromptForYesNo.

(** *** Guards *)

(** [v === s] for a nullable string [v]. *)
Definition same (v : option string) (s : string) : bool :=
  match v with
  | Some x => String.eqb x s
  | None => false
  end.

(** [!!context.lastResult]: an array, even an empty one, is truthy. *)
Definition hasResult : Guard DMContext :=
  fun c => Ok (match lastResult c with Some _ => true | None => false end).

Definition nameIs (s : string) : Guard DMContext :=
  fun c => Ok (same (nameResult c) s).
Definition nameIsNot (s : string) : Guard DMContext :=
  fun c => Ok (negb (same (nameResult c) s)).

Definition inGrammar : Guard DMContext :=
  fun c => u ← topUtterance c; mret (isInGrammar u).
Definition notInGrammar : Guard DMContext :=
  fun c => u ← topUtterance c; mret (negb (isInGrammar u)).

Definition notWeekday : Guard DMContext :=
  fun c => u ← topUtterance c; mret (negb (validateDay u)).
(** [validateDay(u) && isInGrammar(u)], each operand reading the context. *)
Definition weekdayInGrammar : Guard DMContext :=
  fun c =>
    u ← topUtterance c;
    if validateDay u then u' ← topUtterance c; mret (isInGrammar u') else mret false.
Definition weekdayNotInGrammar : Guard DMContext :=
  fun c =>
    u ← topUtterance c;
    if validateDay u then u' ← topUtterance c; mret (negb (isInGrammar u'))
    else mret false.

(** [if (isNo(u.toLowerCase())) { return true; } return false;] *)
Definition saidNo : Guard DMContext :=
  fun c => u ← topUtterance c; if isNo (toLowerCase u) then mret true else mret false.
Definition saidYes : Guard DMContext :=
  fun c => u ← topUtterance c; if isYes (toLowerCase u) then mret true else mret false.
(** [!isNo(u.toLowerCase()) || !isYes(u.toLowerCase())] *)
Definition notNoOrNotYes : Guard DMContext :=
  fun c =>
    u ← topUtterance c;
    if negb (isNo (toLowerCase u)) then mret true
    else u' ← topUtterance c; mret (negb (isYes (toLowerCase u'))).

(** *** Transitions on events *)

Definition listening (ev : Event) : list (Transition State DMContext) :=
  match ev with
  | RECOGNISED value _ => [assign (set_lastResult (Some value))]
  | ASR_NOINPUT => [assign (set_lastResult None)]
  | _ => []
  end.

Definition onSpeakComplete (s : State) : list (Transition State DMContext) :=
  match s with
  | Greeting => [goto toAskName]
  | AskName Name.PromptForName => [goto (AskName Name.Listen)]
  | AskName Name.NoInput => [goto (AskName Name.PromptForName)]
  | AskName Name.InvalidInput => [goto (AskName Name.PromptForName)]
  | AskName Name.ValidInput =>
      [gotoIf (nameIs "Unknown") toAskName; gotoIf (nameIsNot "Unknown") toAskDay]
  | AskDay Day.PromptForDay => [goto (AskDay Day.Listen)]
  | AskDay Day.NoInput => [goto (AskDay Day.PromptForDay)]
  | AskDay Day.InvalidDay => [goto (AskDay Day.PromptForDay)]
  | AskDay Day.InvalidInput => [goto (AskDay Day.PromptForDay)]
  | AskDay Day.ValidInput => [goto toAskFullDay]
  | AskFullDay YesNo.PromptForYesNo => [goto (AskFullDay YesNo.Listen)]
  | AskFullDay YesNo.NoInput => [goto (AskFullDay YesNo.PromptForYesNo)]
  | AskFullDay YesNo.InvalidYesNo => [goto (AskFullDay YesNo.PromptForYesNo)]
  | AskFullDay YesNo.InvalidInput => [goto (AskFullDay YesNo.PromptForYesNo)]
  | AskFullDay YesNo.WholeDay => [goto toAskConfirm]
  | AskTime Time.PromptForTime => [goto (AskTime Time.Listen)]
  | AskTime Time.NoInput => [goto (AskTime Time.PromptForTime)]
  | AskTime Time.InvalidTime => [goto (AskTime Time.PromptForTime)]
  | AskTime Time.InvalidInput => [goto (AskTime Time.PromptForTime)]
  | AskTime Time.ValidInput => [goto toAskConfirm]
  | AskConfirm YesNo.PromptForYesNo => [goto (AskConfirm YesNo.Listen)]
  | AskConfirm YesNo.NoInput => [goto (AskConfirm YesNo.PromptForYesNo)]
  | AskConfirm YesNo.InvalidYesNo => [goto (AskConfirm YesNo.PromptForYesNo)]
  | AskConfirm YesNo.InvalidInput => [goto (AskConfirm YesNo.PromptForYesNo)]
  | AskConfirm YesNo.WholeDay => [goto Done]
  | _ => []
  end.

(** The [on] of the atomic states and of the children. *)
Definition onOwn (s : State) (ev : Event) : list (Transition State DMContext) :=
  match ev with
  | ASRTTS_READY => match s with Prepare => [goto WaitToStart] | _ => [] end
  | CLICK =>
      match s with
      | WaitToStart => [goto Greeting]
      | Done => [goto Greeting]
      | _ => []
      end
  | SPEAK_COMPLETE => onSpeakComplete s
  | RECOGNISED _ _ | ASR_NOINPUT =>
      match s with
      | AskName Name.Listen | AskDay Day.Listen | AskFullDay YesNo.Listen
      | AskTime Time.Listen | AskConfirm YesNo.Listen => listening ev
      | _ => []
      end
  | _ => []
  end.

(** The [on] of the compound state a child lives in. *)
Definition onParent (s : State) (ev : Event) : list (Transition State DMContext) :=
  match ev with
  | LISTEN_COMPLETE =>
      match s with
      | AskName _ => [gotoIf hasResult (AskName Name.ValidateInput); goto (AskName Name.NoInput)]
      | AskDay _ => [gotoIf hasResult (AskDay Day.ValidateInput); goto (AskDay Day.NoInput)]
      | AskFullDay _ =>
          [gotoIf hasResult (AskFullDay YesNo.ValidateInput); goto (AskFullDay YesNo.NoInput)]
      | AskTime _ => [gotoIf hasResult (AskTime Time.ValidateInput); goto (AskTime Time.NoInput)]
      | AskConfirm _ =>
          [gotoIf hasResult (AskConfirm YesNo.ValidateInput); goto (AskConfirm YesNo.NoInput)]
      | _ => []
      end
  | _ => []
  end.

Definition on (s : State) (ev : Event) : list (Transition State DMContext) :=
  onOwn s ev ++ onParent s ev.

(** *** Eventless transitions *)
Definition always (s : State) : list (Guard DMContext * State) :=
  match s with
  | AskName Name.ValidateInput =>
      [(inGrammar, AskName Name.ValidInput); (notInGrammar, AskName Name.InvalidInput)]
  | AskDay Day.ValidateInput =>
      [(notWeekday, AskDay Day.InvalidDay);
       (weekdayInGrammar, AskDay Day.ValidInput);
       (weekdayNotInGrammar, AskDay Day.InvalidInput)]
  | AskFullDay YesNo.ValidateInput =>
      [(saidNo, toAskTime);
       (saidYes, AskFullDay YesNo.WholeDay);
       (notNoOrNotYes, AskFullDay YesNo.InvalidInput)]
  | AskTime Time.ValidateInput =>
      [(inGrammar, AskTime Time.ValidInput); (notInGrammar, AskTime Time.InvalidInput)]
  | AskConfirm YesNo.ValidateInput =>
      [(saidNo, toAskName);
       (saidYes, Done);
       (notNoOrNotYes, AskConfirm YesNo.InvalidInput)]
  | _ => []
  end.

(** *** Entry actions *)
Definition say (c : DMContext) (u : string) : Res (DMContext * list Command) :=
  mret (c, [SPEAK u]).
Definition sayHeard (c : DMContext) (pre post : string) : Res (DMContext * list Command) :=
  u ← topUtterance c; say c (pre ++ u ++ post).

Definition sorryNothing : string := "Sorry, I didn't hear anything!".

Definition entry (s : State) (c : DMContext) : Res (DMContext * list Command) :=
  match s with
  | Prepare => mret (c, [PREPARE])
  | WaitToStart => mret (c, [])
  | Greeting => say c "Hi! Let's create an appointment."
  | AskName Name.PromptForName => say c "Who are you meeting with?"
  | AskName Name.NoInput => say c sorryNothing
  | AskName Name.InvalidInput =>
      sayHeard c "sorry, but there does not seem to be a person with the name  "
                 " in our system."
  | AskName Name.ValidInput =>
      u ← topUtterance c;
      let c' := set_nameResult (Some (orElse (getPerson u) "Unknown")) c in
      say c' (if same (nameResult c') "Unknown"
              then "Sorry, I did not recognise that name."
              else "ok, you are meeting with " ++ show (nameResult c'))
  | AskName Name.ValidateInput => mret (c, [])
  | AskName Name.Listen => mret (c, [LISTEN])
  | AskDay Day.PromptForDay => say c "On which day is your meeting?"
  | AskDay Day.NoInput => say c sorryNothing
  | AskDay Day.InvalidDay => sayHeard c "sorry, but " " is not a valid weekday name."
  | AskDay Day.InvalidInput =>
      sayHeard c "sorry, but " " does not seem to be a bookable day in our system."
  | AskDay Day.ValidInput =>
      u ← topUtterance c;
      let c' := set_dayResult (Some (orElse (Some u) "Unknown")) c in
      say c' ("ok, your meeting is on " ++ show (dayResult c'))
  | AskDay Day.ValidateInput => mret (c, [])
  | AskDay Day.Listen => mret (c, [LISTEN])
  | AskFullDay YesNo.PromptForYesNo => say c "Will it take the whole day?"
  | AskFullDay YesNo.NoInput => say c sorryNothing
  | AskFullDay YesNo.InvalidYesNo => sayHeard c "sorry, but " " is not a yes or no response."
  | AskFullDay YesNo.InvalidInput =>
      sayHeard c "sorry, but I heard " ". Please answer with yes or no."
  | AskFullDay YesNo.WholeDay =>
      let c' := set_timeResult (Some "whole day") c in
      say c' ("ok, " ++ show (timeResult c'))
  | AskFullDay YesNo.ValidateInput => mret (c, [])
  | AskFullDay YesNo.Listen => mret (c, [LISTEN])
  | AskTime Time.PromptForTime => say c "What time is your meeting?"
  | AskTime Time.NoInput => say c sorryNothing
  | AskTime Time.InvalidTime => sayHeard c "sorry, but " " is not a valid time."
  | AskTime Time.InvalidInput =>
      sayHeard c "sorry, but " " does not seem to be a bookable time in our system."
  | AskTime Time.ValidInput =>
      u ← topUtterance c;
      let c' := set_timeResult (Some (orElse (Some u) "Unknown")) c in
      say c' ("ok, " ++ show (timeResult c'))
  | AskTime Time.ValidateInput => mret (c, [])
  | AskTime Time.Listen => mret (c, [LISTEN])
  | AskConfirm YesNo.PromptForYesNo =>
      say c ("Do you want me to create an appointment with " ++ show (nameResult c)
             ++ " on " ++ show (dayResult c) ++ " "
             ++ (if same (timeResult c) "whole day"
                 then "for the whole day"
                 else "at " ++ show (timeResult c))
             ++ "?")
  | AskConfirm YesNo.NoInput => say c sorryNothing
  | AskConfirm YesNo.InvalidYesNo => sayHeard c "sorry, but " " is not a yes or no response."
  | AskConfirm YesNo.InvalidInput =>
      sayHeard c "sorry, but I heard " ". Please answer with yes or no."
  | AskConfirm YesNo.WholeDay =>
      let c' := set_timeResult (Some "whole day") c in
      say c' ("ok, " ++ show (timeResult c'))
  | AskConfirm YesNo.ValidateInput => mret (c, [])
  | AskConfirm YesNo.Listen => mret (c, [LISTEN])
  | Done => say c "Your appointment has been created!"
  end.

Definition dmMachine : Machine State DMContext Event Command :=
  mkMachine on always entry.

Definition eventless := XState.eventless dmMachine.
Definition arrive := XState.arrive dmMachine.
Definition step := XState.step dmMachine.
Definition run := XState.run dmMachine.

(** [createActor(dmMachine).start()] *)
Definition started : Res (Config State DMContext * list Command) :=
  arrive Prepare initialContext.

(** The configuration of the started actor. *)
Definition initial : Config State DMContext := mkConfig Prepare initialContext.

(** *** The five slot-filling steps, to state what they have in common *)
Inductive Slot : Type := Person | Weekday | WholeDayFlag | TimeOfDay | Confirmation.

Definition promptOf (sl : Slot) : State :=
  match sl with
  | Person => AskName Name.PromptForName
  | Weekday => AskDay Day.PromptForDay
  | WholeDayFlag => AskFullDay YesNo.PromptForYesNo
  | TimeOfDay => AskTime Time.PromptForTime
  | Confirmation => AskConfirm YesNo.PromptForYesNo
  end.

Definition listenOf (sl : Slot) : State :=
  match sl with
  | Person => AskName Name.Listen
  | Weekday => AskDay Day.Listen
  | WholeDayFlag => AskFullDay YesNo.Listen
  | TimeOfDay => AskTime Time.Listen
  | Confirmation => AskConfirm YesNo.Listen
  end.

Definition noInputOf (sl : Slot) : State :=
  match sl with
  | Person => AskName Name.NoInput
  | Weekday => AskDay Day.NoInput
  | WholeDayFlag => AskFullDay YesNo.NoInput
  | TimeOfDay => AskTime Time.NoInput
  | Confirmation => AskConfirm YesNo.NoInput
  end.

(** [s] is a child state of the step of [sl]. *)
Definition within (sl : Slot) (s : State) : bool :=
  match sl, s with
  | Person, AskName _ | Weekday, AskDay _ | WholeDayFlag, AskFullDay _
  | TimeOfDay, AskTime _ | Confirmation, AskConfirm _ => true
  | _, _ => false
  end.

(** *** The slots a state may still read before they are assigned again *)
Definition readsName (s : State) : bool :=
  match s with
  | AskName Name.ValidInput | AskDay _ | AskFullDay _ | AskTime _ | AskConfirm _ => true
  | _ => false
  end.

Definition readsDay (s : State) : bool :=
  match s with
  | AskDay Day.ValidInput | AskFullDay _ | AskTime _ | AskConfirm _ => true
  | _ => false
  end.

Definition readsTime (s : State) : bool :=
  match s with
  | AskFullDay YesNo.WholeDay | AskTime Time.ValidInput | AskConfirm _ => true
  | _ => false
  end.

(** The context without the slots that [s] will not read. *)
Definition forget (s : State) (c : DMContext) : DMContext :=
  mkContext (lastResult c)
            (if readsName s then nameResult c else None)
            (if readsDay s then dayResult c else None)
            (if readsTime s then timeResult c else None).

(** Two contexts that differ at most in slots [s] will not read. *)
Definition agree (s : State) (c1 c2 : DMContext) : Prop :=
  forget s c1 = forget s c2.

(** *** A measure for the eventless transitions: they lead from
    ValidateInput to a state that has none *)
Definition rank (s : State) : nat :=
  match s with
  | AskName Name.ValidateInput | AskDay Day.ValidateInput
  | AskFullDay YesNo.ValidateInput | AskTime Time.ValidateInput
  | AskConfirm YesNo.ValidateInput => 1
  | _ => 0
  end.

End Dm.

(** ** dm4.ts: the NLU machine *)
Module Dm4.

Module What.
Inductive child : Type :=
| PromptForWhat | NoInput | InvalidInput | ValidInput | ValidateInput | Listen.
End What.
Module Name.
Inductive child : Type :=
| CheckForName | PromptForName | NoInput | InvalidInput | ValidInput
| ValidateInput | Listen.
End Name.
Module Day.
Inductive child : Type :=
| CheckForDay | PromptForDay | NoInput | InvalidDay | InvalidInput | ValidInput
| ValidateInput | Listen.
End Day.
Module FullDay.
Inductive child : Type :=
| CheckForTime | PromptForYesNo | NoInput | InvalidYesNo | InvalidInput | WholeDay
| ValidateInput | Listen.
End FullDay.
Module Time.
Inductive child : Type :=
| CheckForTime | PromptForTime | NoInput | InvalidTime | InvalidInput | ValidInput
| ValidateInput | Listen.
End Time.
Module Confirm.
Inductive child : Type :=
| PromptForYesNo | NoInput | InvalidYesNo | InvalidInput | WholeDay
| ValidateInput | Listen.
End Confirm.

Inductive State : Type :=
| Prepare
| WaitToStart
| Greeting
| AskWhat (c : What.child)
| WhoIs
| AskName (c : Name.child)
| AskDay (c : Day.child)
| AskFullDay (c : FullDay.child)
| AskTime (c : Time.child)
| AskConfirm (c : Confirm.child)
| Done
| DoneMeeting.

(** What [context.lastResult] holds at run time: [null], the
    hypotheses of a plain recognition, or the [nluValue] object the
    AskWhat step stores there. *)
Inductive LastResult : Type :=
| Null
| Hyps (value : list Hyp)
| Nlu (nluValue : NluValue).

(** [DMContext] (the declaration with string slots). *)
Record DMContext : Type := mkContext {
  lastResult : LastResult;
  nameResult : string;
  dayResult : string;
  timeResult : string;
  nluIntent : string;
  nluEntities : option (list Entity)
}.

Definition initialContext : DMContext := mkContext Null "" "" "" "" None.

Definition set_lastResult (v : LastResult) (c : DMContext) : DMContext :=
  mkContext v (nameResult c) (dayResult c) (timeResult c) (nluIntent c) (nluEntities c).
Definition set_nameResult (v : string) (c : DMContext) : DMContext :=
  mkContext (lastResult c) v (dayResult c) (timeResult c) (nluIntent c) (nluEntities c).
Definition set_dayResult (v : string) (c : DMContext) : DMContext :=
  mkContext (lastResult c) (nameResult c) v (timeResult c) (nluIntent c) (nluEntities c).
Definition set_timeResult (v : string) (c : DMContext) : DMContext :=
  mkContext (lastResult c) (nameResult c) (dayResult c) v (nluIntent c) (nluEntities c).

(** [context.lastResult![0].utterance]: an [nluValue] object has no
    element [0]. *)
Definition topUtterance (c : DMContext) : Res string :=
  match lastResult c with
  | Hyps (h :: _) => Ok (utterance h)
  | Hyps [] => Throw TypeError
  | Nlu _ => Throw TypeError
  | Null => Throw TypeError
  end.

Definition personInfo : gmap string string :=
  list_to_map
    [ ("michael jackson",
       "Michael Jackson is a singer, songwriter, and dancer. He is often referred to as the 'King of Pop'.");
      ("madonna",
       "Madonna is a singer, songwriter, and actress. She is often referred to as the 'Queen of Pop'.");
      ("mother teresa",
       "Mother Teresa was a Roman Catholic nun and missionary. She devoted her life to helping the poor and sick in India and was awarded the Nobel Peace Prize in 1979.");
      ("vic", "") ].

(** A built-in of [Object.prototype] inside a template literal. *)
Definition showBuiltin (k : string) : string :=
  if String.eqb k "__proto__" then "[object Object]"
  else "function " ++ (if String.eqb k "constructor" then "Object" else k)
       ++ "() { [native code] }".

(** [personInfo[name.toLowerCase()] || "I couldn't find any information."] *)
Definition personDescription (name : string) : string :=
  match Js.get personInfo (toLowerCase name) with
  | Own d => orElse (Some d) "I couldn't find any information."
  | Inherited k => showBuiltin k
  | Undefined => "I couldn't find any information."
  end.

Definition toAskWhat : State := AskWhat What.PromptForWhat.
Definition toAskName : State := AskName Name.CheckForName.
Definition toAskDay : State := AskDay Day.CheckForDay.
Definition toAskFullDay : State := AskFullDay FullDay.CheckForTime.
Definition toAskTime : State := AskTime Time.CheckForTime.
Definition toAskConfirm : State := AskConfirm Confirm.PromptForYesNo.

(** *** Guards *)

(** [!!context.lastResult] *)
Definition hasResult : Guard DMContext :=
  fun c => Ok (match lastResult c with Null => false | _ => true end).

(** [!!slot || !!context.lastResult![0].utterance] *)
Definition slotOrHeard (slot : DMContext -> string) : Guard DMContext :=
  fun c => if truthy (slot c) then mret true else u ← topUtterance c; mret (truthy u).

Definition equals (slot : DMContext -> string) (s : string) : Guard DMContext :=
  fun c => Ok (String.eqb (slot c) s).
Definition differs (slot : DMContext -> string) (s : string) : Guard DMContext :=
  fun c => Ok (negb (String.eqb (slot c) s)).

Definition notWeekday : Guard DMContext :=
  fun c => u ← topUtterance c; mret (negb (validateDay u)).
Definition weekdayInGrammar : Guard DMContext :=
  fun c =>
    u ← topUtterance c;
    if validateDay u then u' ← topUtterance c; mret (isInGrammar u') else mret false.
Definition weekdayNotInGrammar : Guard DMContext :=
  fun c =>
    u ← topUtterance c;
    if validateDay u then u' ← topUtterance c; mret (negb (isInGrammar u'))
    else mret false.

Definition saidNo : Guard DMContext :=
  fun c => u ← topUtterance c; if isNo (toLowerCase u) then mret true else mret false.
Definition saidYes : Guard DMContext :=
  fun c => u ← topUtterance c; if isYes (toLowerCase u) then mret true else mret false.
Definition notNoOrNotYes : Guard DMContext :=
  fun c =>
    u ← topUtterance c;
    if negb (isNo (toLowerCase u)) then mret true
    else u' ← topUtterance c; mret (negb (isYes (toLowerCase u'))).

(** [isInGrammar(context.timeResult) || isInGrammar(context.lastResult![0].utterance)] *)
Definition timeInGrammar : Guard DMContext :=
  fun c =>
    if isInGrammar (timeResult c) then mret true
    else u ← topUtterance c; mret (isInGrammar u).
(** [!isInGrammar(context.timeResult) || !isInGrammar(context.lastResult![0].utterance)] *)
Definition timeNotInGrammar : Guard DMContext :=
  fun c =>
    if negb (isInGrammar (timeResult c)) then mret true
    else u ← topUtterance c; mret (negb (isInGrammar u)).

(** *** Actions *)

(** The [updates] object of the RECOGNISED action of AskWhat. *)
Record Updates : Type := mkUpdates {
  upd_nameResult : option string;
  upd_timeResult : option string;
  upd_dayResult : option string
}.

(** The body of the loop over the entities. *)
Definition scan (updates : Updates) (entity : Entity) : Updates :=
  if String.eqb (category entity) "personName" then
    mkUpdates (Some (text entity)) (upd_timeResult updates) (upd_dayResult updates)
  else if String.eqb (category entity) "apptTime" then
    mkUpdates (upd_nameResult updates) (Some (text entity)) (upd_dayResult updates)
  else if String.eqb (category entity) "apptDay" then
    mkUpdates (upd_nameResult updates) (upd_timeResult updates) (Some (text entity))
  else updates.

(** The RECOGNISED action of AskWhat.Listen:
    [{...context, ...updates, lastResult, nluIntent, nluEntities}]. *)
Definition recogniseNlu (nluValue : option NluValue) (c : DMContext) : Res DMContext :=
  match nluValue with
  | None => Throw TypeError
  | Some v =>
      let updates := fold_left scan (default [] (entities v)) (mkUpdates None None None) in
      mret (mkContext (Nlu v)
                      (default (nameResult c) (upd_nameResult updates))
                      (default (dayResult c) (upd_dayResult updates))
                      (default (timeResult c) (upd_timeResult updates))
                      (topIntent v)
                      (entities v))
  end.

(** The assignment on entry to Done and DoneMeeting. *)
Definition reset (c : DMContext) : DMContext := mkContext Null "" "" "" "" None.

(** *** Transitions on events *)

Definition listening (ev : Event) : list (Transition State DMContext) :=
  match ev with
  | RECOGNISED value _ => [assign (set_lastResult (Hyps value))]
  | ASR_NOINPUT => [assign (set_lastResult Null)]
  | _ => []
  end.

Definition listeningNlu (ev : Event) : list (Transition State DMContext) :=
  match ev with
  | RECOGNISED _ nluValue => [mkTransition yes (recogniseNlu nluValue) None]
  | ASR_NOINPUT => [assign (set_lastResult Null)]
  | _ => []
  end.

Definition onSpeakComplete (s : State) : list (Transition State DMContext) :=
  match s with
  | Greeting => [goto toAskWhat]
  | AskWhat What.PromptForWhat => [goto (AskWhat What.Listen)]
  | AskWhat What.NoInput => [goto (AskWhat What.PromptForWhat)]
  | AskWhat What.InvalidInput => [goto (AskWhat What.PromptForWhat)]
  | AskWhat What.ValidInput =>
      [gotoIf (equals nluIntent "CreateMeeting") toAskName;
       gotoIf (equals nluIntent "WhoIs") WhoIs]
  | WhoIs => [goto Done]
  | AskName Name.PromptForName => [goto (AskName Name.Listen)]
  | AskName Name.NoInput => [goto (AskName Name.PromptForName)]
  | AskName Name.InvalidInput => [goto (AskName Name.PromptForName)]
  | AskName Name.ValidInput =>
      [gotoIf (equals nameResult "Unknown") toAskName;
       gotoIf (differs nameResult "Unknown") toAskDay]
  | AskDay Day.PromptForDay => [goto (AskDay Day.Listen)]
  | AskDay Day.NoInput => [goto (AskDay Day.PromptForDay)]
  | AskDay Day.InvalidDay => [goto (AskDay Day.PromptForDay)]
  | AskDay Day.InvalidInput => [goto (AskDay Day.PromptForDay)]
  | AskDay Day.ValidInput => [goto toAskFullDay]
  | AskFullDay FullDay.PromptForYesNo => [goto (AskFullDay FullDay.Listen)]
  | AskFullDay FullDay.NoInput => [goto (AskFullDay FullDay.PromptForYesNo)]
  | AskFullDay FullDay.InvalidYesNo => [goto (AskFullDay FullDay.PromptForYesNo)]
  | AskFullDay FullDay.InvalidInput => [goto (AskFullDay FullDay.PromptForYesNo)]
  | AskFullDay FullDay.WholeDay => [goto toAskConfirm]
  | AskTime Time.PromptForTime => [goto (AskTime Time.Listen)]
  | AskTime Time.NoInput => [goto (AskTime Time.PromptForTime)]
  | AskTime Time.InvalidTime => [goto (AskTime Time.PromptForTime)]
  | AskTime Time.InvalidInput => [goto (AskTime Time.PromptForTime)]
  | AskTime Time.ValidInput => [goto toAskConfirm]
  | AskConfirm Confirm.PromptForYesNo => [goto (AskConfirm Confirm.Listen)]
  | AskConfirm Confirm.NoInput => [goto (AskConfirm Confirm.PromptForYesNo)]
  | AskConfirm Confirm.InvalidYesNo => [goto (AskConfirm Confirm.PromptForYesNo)]
  | AskConfirm Confirm.InvalidInput => [goto (AskConfirm Confirm.PromptForYesNo)]
  | AskConfirm Confirm.WholeDay => [goto DoneMeeting]
  | _ => []
  end.

Definition onOwn (s : State) (ev : Event) : list (Transition State DMContext) :=
  match ev with
  | ASRTTS_READY => match s with Prepare => [goto WaitToStart] | _ => [] end
  | CLICK =>
      match s with
      | WaitToStart => [goto Greeting]
      | Done => [goto Greeting]
      | DoneMeeting => [goto Greeting]
      | _ => []
      end
  | SPEAK_COMPLETE => onSpeakComplete s
  | RECOGNISED _ _ | ASR_NOINPUT =>
      match s with
      | AskWhat What.Listen => listeningNlu ev
      | AskName Name.Listen | AskDay Day.Listen | AskFullDay FullDay.Listen
      | AskTime Time.Listen | AskConfirm Confirm.Listen => listening ev
      | _ => []
      end
  | _ => []
  end.

Definition onParent (s : State) (ev : Event) : list (Transition State DMContext) :=
  match ev with
  | LISTEN_COMPLETE =>
      match s with
      | AskWhat _ => [gotoIf hasResult (AskWhat What.ValidateInput); goto (AskWhat What.NoInput)]
      | AskName _ =>
          [gotoIf (slotOrHeard nameResult) (AskName Name.ValidateInput);
           goto (AskName Name.NoInput)]
      | AskDay _ =>
          [gotoIf (slotOrHeard dayResult) (AskDay Day.ValidateInput);
           goto (AskDay Day.NoInput)]
      | AskFullDay _ =>
          [gotoIf (slotOrHeard timeResult) (AskFullDay FullDay.ValidateInput);
           goto (AskFullDay FullDay.NoInput)]
      | AskTime _ =>
          [gotoIf (slotOrHeard timeResult) (AskTime Time.ValidateInput);
           goto (AskTime Time.NoInput)]
      | AskConfirm _ =>
          [gotoIf hasResult (AskConfirm Confirm.ValidateInput);
           goto (AskConfirm Confirm.NoInput)]
      | _ => []
      end
  | _ => []
  end.

Definition on (s : State) (ev : Event) : list (Transition State DMContext) :=
  onOwn s ev ++ onParent s ev.

(** *** Eventless transitions *)
Definition always (s : State) : list (Guard DMContext * State) :=
  match s with
  | AskWhat What.ValidateInput =>
      [(differs nluIntent "None", AskWhat What.ValidInput);
       (equals nluIntent "None", AskWhat What.InvalidInput)]
  | AskName Name.CheckForName =>
      [(differs nameResult "", AskName Name.ValidateInput); (yes, AskName Name.PromptForName)]
  | AskName Name.ValidateInput =>
      [(differs nameResult "Unknown", AskName Name.ValidInput);
       (equals nameResult "Unknown", AskName Name.InvalidInput)]
  | AskDay Day.CheckForDay =>
      [(differs dayResult "", toAskFullDay); (yes, AskDay Day.PromptForDay)]
  | AskDay Day.ValidateInput =>
      [(notWeekday, AskDay Day.InvalidDay);
       (weekdayInGrammar, AskDay Day.ValidInput);
       (weekdayNotInGrammar, AskDay Day.InvalidInput)]
  | AskFullDay FullDay.CheckForTime =>
      [(differs timeResult "", toAskTime); (yes, AskFullDay FullDay.PromptForYesNo)]
  | AskFullDay FullDay.ValidateInput =>
      [(saidNo, toAskTime);
       (saidYes, AskFullDay FullDay.WholeDay);
       (notNoOrNotYes, AskFullDay FullDay.InvalidInput)]
  | AskTime Time.CheckForTime =>
      [(differs timeResult "", AskTime Time.ValidateInput); (yes, AskTime Time.PromptForTime)]
  | AskTime Time.ValidateInput =>
      [(timeInGrammar, AskTime Time.ValidInput);
       (timeNotInGrammar, AskTime Time.InvalidInput)]
  | AskConfirm Confirm.ValidateInput =>
      [(saidNo, toAskName);
       (saidYes, DoneMeeting);
       (notNoOrNotYes, AskConfirm Confirm.InvalidInput)]
  | _ => []
  end.

(** *** Entry actions *)
Definition say (c : DMContext) (u : string) : Res (DMContext * list Command) :=
  mret (c, [SPEAK u]).
Definition sayHeard (c : DMContext) (pre post : string) : Res (DMContext * list Command) :=
  u ← topUtterance c; say c (pre ++ u ++ post).

Definition sorryNothing : string := "Sorry, I didn't hear anything!".

(** The assignment on entry to AskName.ValidateInput:
    [(getPerson(nameResult) || getPerson(lastResult![0].utterance)) || "Unknown"]. *)
Definition resolveName (c : DMContext) : Res DMContext :=
  person ← (match getPerson (nameResult c) with
            | Some p => if truthy p then mret (Some p)
                        else u ← topUtterance c; mret (getPerson u)
            | None => u ← topUtterance c; mret (getPerson u)
            end);
  mret (set_nameResult (orElse person "Unknown") c).

(** The assignment on entry to AskTime.ValidInput:
    [timeResult || lastResult![0].utterance || "Unknown"]. *)
Definition resolveTime (c : DMContext) : Res DMContext :=
  if truthy (timeResult c) then mret c
  else u ← topUtterance c; mret (set_timeResult (orElse (Some u) "Unknown") c).

Definition entry (s : State) (c : DMContext) : Res (DMContext * list Command) :=
  match s with
  | Prepare => mret (c, [PREPARE])
  | WaitToStart => mret (c, [])
  | Greeting => say c "Hi NLU!"
  | AskWhat What.PromptForWhat => say c "What can I help you with?"
  | AskWhat What.NoInput => say c sorryNothing
  | AskWhat What.InvalidInput =>
      say c "Sorry, I didn't understand that. You can ask to make an appointment or ask about a person."
  | AskWhat What.ValidInput => say c "All right, let's go!"
  | AskWhat What.ValidateInput => mret (c, [])
  | AskWhat What.Listen => mret (c, [LISTEN_NLU])
  | WhoIs =>
      say c (if String.eqb (nameResult c) ""
             then "Sorry, " ++ personDescription (nameResult c)
                  ++ " I can only give information if I have the name of a person."
             else "ok, you want to know about " ++ nameResult c ++ ". "
                  ++ personDescription (nameResult c))
  | AskName Name.CheckForName => mret (c, [])
  | AskName Name.PromptForName => say c "Who are you meeting with?"
  | AskName Name.NoInput => say c sorryNothing
  | AskName Name.InvalidInput =>
      say c ("sorry, but there does not seem to be a person with the name  "
             ++ nameResult c ++ " in our system.")
  | AskName Name.ValidInput =>
      say c (if String.eqb (nameResult c) "Unknown"
             then "Sorry, I did not recognise that name."
             else "ok, you are meeting with " ++ nameResult c)
  | AskName Name.ValidateInput => c' ← resolveName c; mret (c', [])
  | AskName Name.Listen => mret (c, [LISTEN])
  | AskDay Day.CheckForDay => mret (c, [])
  | AskDay Day.PromptForDay => say c "On which day is your meeting?"
  | AskDay Day.NoInput => say c sorryNothing
  | AskDay Day.InvalidDay => sayHeard c "sorry, but " " is not a valid weekday name."
  | AskDay Day.InvalidInput =>
      sayHeard c "sorry, but " " does not seem to be a bookable day in our system."
  | AskDay Day.ValidInput =>
      u ← topUtterance c;
      let c' := set_dayResult (orElse (Some u) "Unknown") c in
      say c' ("ok, your meeting is on " ++ dayResult c')
  | AskDay Day.ValidateInput => mret (c, [])
  | AskDay Day.Listen => mret (c, [LISTEN])
  | AskFullDay FullDay.CheckForTime => mret (c, [])
  | AskFullDay FullDay.PromptForYesNo => say c "Will it take the whole day?"
  | AskFullDay FullDay.NoInput => say c sorryNothing
  | AskFullDay FullDay.InvalidYesNo =>
      sayHeard c "sorry, but " " is not a yes or no response."
  | AskFullDay FullDay.InvalidInput =>
      sayHeard c "sorry, but I heard " ". Please answer with yes or no."
  | AskFullDay FullDay.WholeDay =>
      let c' := set_timeResult "whole day" c in
      say c' ("ok, " ++ timeResult c')
  | AskFullDay FullDay.ValidateInput => mret (c, [])
  | AskFullDay FullDay.Listen => mret (c, [LISTEN])
  | AskTime Time.CheckForTime => mret (c, [])
  | AskTime Time.PromptForTime => say c "What time is your meeting?"
  | AskTime Time.NoInput => say c sorryNothing
  | AskTime Time.InvalidTime => sayHeard c "sorry, but " " is not a valid time."
  | AskTime Time.InvalidInput =>
      sayHeard c "sorry, but " " does not seem to be a bookable time in our system."
  | AskTime Time.ValidInput =>
      c' ← resolveTime c;
      say c' ("ok, " ++ timeResult c')
  | AskTime Time.ValidateInput => mret (c, [])
  | AskTime Time.Listen => mret (c, [LISTEN])
  | AskConfirm Confirm.PromptForYesNo =>
      say c ("Do you want me to create an appointment with " ++ nameResult c
             ++ " on " ++ dayResult c ++ " "
             ++ (if String.eqb (timeResult c) "whole day"
                 then "for the whole day"
                 else "at " ++ timeResult c)
             ++ "?")
  | AskConfirm Confirm.NoInput => say c sorryNothing
  | AskConfirm Confirm.InvalidYesNo =>
      sayHeard c "sorry, but " " is not a yes or no response."
  | AskConfirm Confirm.InvalidInput =>
      sayHeard c "sorry, but I heard " ". Please answer with yes or no."
  | AskConfirm Confirm.WholeDay =>
      let c' := set_timeResult "whole day" c in
      say c' ("ok, " ++ timeResult c')
  | AskConfirm Confirm.ValidateInput => mret (c, [])
  | AskConfirm Confirm.Listen => mret (c, [LISTEN])
  | Done => say (reset c) "Thank you for using Jenny's dialogue system lab! Goodbye!"
  | DoneMeeting => say (reset c) "Ok, your meeting has been set up! Goodbye!"
  end.

Definition dmMachine : Machine State DMContext Event Command :=
  mkMachine on always entry.

Definition eventless := XState.eventless dmMachine.
Definition arrive := XState.arrive dmMachine.
Definition step := XState.step dmMachine.
Definition run := XState.run dmMachine.

(** [createActor(dmMachine).start()] *)
Definition started : Res (Config State DMContext * list Command) :=
  arrive Prepare initialContext.

(** The configuration of the started actor. *)
Definition initial : Config State DMContext := mkConfig Prepare initialContext.

(** *** The four steps whose LISTEN_COMPLETE guard reads the slot *)
Inductive Slot : Type := Person | Weekday | WholeDayFlag | TimeOfDay.

(** The context field the guard of the step tests. *)
Definition slotValue (sl : Slot) : DMContext -> string :=
  match sl with
  | Person => nameResult
  | Weekday => dayResult
  | WholeDayFlag => timeResult
  | TimeOfDay => timeResult
  end.

Definition noInputOf (sl : Slot) : State :=
  match sl with
  | Person => AskName Name.NoInput
  | Weekday => AskDay Day.NoInput
  | WholeDayFlag => AskFullDay FullDay.NoInput
  | TimeOfDay => AskTime Time.NoInput
  end.

Definition validateOf (sl : Slot) : State :=
  match sl with
  | Person => AskName Name.ValidateInput
  | Weekday => AskDay Day.ValidateInput
  | WholeDayFlag => AskFullDay FullDay.ValidateInput
  | TimeOfDay => AskTime Time.ValidateInput
  end.

Definition within (sl : Slot) (s : State) : bool :=
  match sl, s with
  | Person, AskName _ | Weekday, AskDay _ | WholeDayFlag, AskFullDay _
  | TimeOfDay, AskTime _ => true
  | _, _ => false
  end.

(** *** A measure for the eventless transitions: the length of the
    longest chain of them that starts in the state *)
Definition rank (s : State) : nat :=
  match s with
  | AskWhat What.ValidateInput => 1
  | AskName Name.ValidateInput => 1
  | AskName Name.CheckForName => 2
  | AskDay Day.ValidateInput => 1
  | AskTime Time.ValidateInput => 1
  | AskTime Time.CheckForTime => 2
  | AskFullDay FullDay.CheckForTime => 3
  | AskFullDay FullDay.ValidateInput => 3
  | AskDay Day.CheckForDay => 4
  | AskConfirm Confirm.ValidateInput => 3
  | _ => 0
  end.

End Dm4.


(** ** Notions the further properties are stated with *)

(** *** The grammar machine: what a booking consists of *)
Module Booking.
Import Dm.

(** The persons of the grammar. *)
Definition persons : list string :=
  ["Vladislav Maraev"; "Nayat Astaiza Soriano"; "Victoria Daniilidou"].

Definition knownPerson (v : option string) : Prop :=
  exists p, v = Some p /\ p ∈ persons.

(** An utterance of one of the two weekdays the grammar lists. *)
Definition bookableDay (v : option string) : Prop :=
  exists d, v = Some d /\ (toLowerCase d = "monday" \/ toLowerCase d = "tuesday").

(** The whole day, or an utterance the membership test accepts. *)
Definition bookableTime (v : option string) : Prop :=
  exists t, v = Some t /\ (t = "whole day" \/ isInGrammar t = true).

(** The states in which the appointment is read back or has been made. *)
Definition confirming (s : State) : bool :=
  match s with
  | AskConfirm _ | Done => true
  | _ => false
  end.

(** What holds of the slots in each state of a run. *)
Definition filled (s : State) (c : DMContext) : Prop :=
  match s with
  | AskName Name.ValidInput =>
      nameResult c = Some "Unknown" \/ knownPerson (nameResult c)
  | AskDay Day.ValidInput =>
      knownPerson (nameResult c) /\ bookableDay (dayResult c)
  | AskDay _ => knownPerson (nameResult c)
  | AskFullDay YesNo.WholeDay | AskTime Time.ValidInput | AskConfirm _ | Done =>
      knownPerson (nameResult c) /\ bookableDay (dayResult c)
      /\ bookableTime (timeResult c)
  | AskFullDay _ | AskTime _ =>
      knownPerson (nameResult c) /\ bookableDay (dayResult c)
  | _ => True
  end.

(** A turn in which nothing is heard. *)
Definition silentTurn : list Event :=
  [SPEAK_COMPLETE; ASR_NOINPUT; LISTEN_COMPLETE; SPEAK_COMPLETE].

(** The states the machine declares and no transition targets. *)
Definition unused (s : State) : bool :=
  match s with
  | AskFullDay YesNo.InvalidYesNo | AskConfirm YesNo.InvalidYesNo
  | AskTime Time.InvalidTime | AskConfirm YesNo.WholeDay => true
  | _ => false
  end.

End Booking.

(** *** The NLU machine: routing and the entities of a request *)
Module Routing.
Import Dm4.

(** The states the machine declares and no transition targets. *)
Definition unused (s : State) : bool :=
  match s with
  | AskFullDay FullDay.InvalidYesNo | AskConfirm Confirm.InvalidYesNo
  | AskTime Time.InvalidTime | AskConfirm Confirm.WholeDay => true
  | _ => false
  end.

(** The text of the last entity of category [cat], if there is one. *)
Definition lastOf (cat : string) (ents : list Entity) : option string :=
  last (map text (List.filter (fun e => String.eqb (category e) cat) ents)).

End Routing.

(** *** Recognition results the machines can take *)
Module Recogniser.

(** The event carries at least one hypothesis when it is a recognition. *)
Definition nonEmpty (ev : Event) : Prop :=
  match ev with
  | RECOGNISED value _ => value <> []
  | _ => True
  end.

(** In ValidateInput the grammar machine reads the top hypothesis, so
    there it must exist; elsewhere the last result is [null] or has one. *)
Definition readable (s : Dm.State) (c : Dm.DMContext) : Prop :=
  Dm.lastResult c <> Some [] /\
  (Dm.rank s = 1 -> Dm.lastResult c <> None).

End Recogniser.

(** * Properties *)

(** Evaluation of the interpreter on a partly symbolic configuration:
    everything is unfolded except the lexicon predicates and the string
    operations, which are then rewritten with the hypotheses at hand. *)
Ltac freeze :=
  cbv -[validateDay isInGrammar isYes isNo getPerson String.append toLowerCase
        orElse truthy String.eqb bool_decide utterance Js.hasOwn Js.get Js.has
        grammar Dm4.personDescription text category].

Ltac freeze_in H :=
  cbv -[validateDay isInGrammar isYes isNo getPerson String.append toLowerCase
        orElse truthy String.eqb bool_decide utterance Js.hasOwn Js.get Js.has
        grammar Dm4.personDescription text category] in H.

(** Comparisons of two string literals are decided by computation. *)
Ltac literal s :=
  match s with
  | EmptyString => idtac
  | String _ ?r => literal r
  end.

Ltac eqb_closed :=
  repeat match goal with
         | |- context [String.eqb ?a ?b] =>
             literal a; literal b;
             let v := eval vm_compute in (String.eqb a b) in
             change (String.eqb a b) with v
         end.

Ltac eqb_closed_in H :=
  repeat match type of H with
         | context [String.eqb ?a ?b] =>
             literal a; literal b;
             let v := eval vm_compute in (String.eqb a b) in
             change (String.eqb a b) with v in H
         end.

Ltac crunch := freeze; eqb_closed; freeze.
Ltac crunch_in H := freeze_in H; eqb_closed_in H; freeze_in H.

(** Case analysis on every test the evaluation of [H] is stuck on. *)
Ltac explore H :=
  repeat (crunch_in H;
          match type of H with
          | Ok _ = Ok _ => fail 1
          | Throw _ = Ok _ => fail 1
          | Unsettled = Ok _ => fail 1
          | context [match ?x with _ => _ end] =>
              match x with
              | context [match _ with _ => _ end] => fail 1
              | _ => destruct x eqn:?
              end
          end).

(** Case analysis on every test the evaluation of the goal is stuck on. *)
Ltac explore_goal :=
  repeat (crunch;
          match goal with
          | |- ?l = ?r =>
              match l with
              | context [match ?x with _ => _ end] =>
                  match x with
                  | context [match _ with _ => _ end] => fail 1
                  | _ => destruct x eqn:?
                  end
              end
          end).

(** ** The lexicon *)
Section LexiconFacts.

Lemma lowerChar_idem (c : ascii) : lowerChar (lowerChar c) = lowerChar c.
Proof. destruct c as [[] [] [] [] [] [] [] []]; reflexivity. Qed.

Lemma toLowerCase_idem (s : string) : toLowerCase (toLowerCase s) = toLowerCase s.
Proof.
  induction s as [|c s IH]; simpl; [reflexivity|].
  by rewrite lowerChar_idem, IH.
Qed.

Lemma includes_true (l : list string) (s : string) : includes l s = true <-> s ∈ l.
Proof. unfold includes. by rewrite bool_decide_eq_true. Qed.

Lemma includes_false (l : list string) (s : string) : includes l s = false <-> s ∉ l.
Proof. unfold includes. by rewrite bool_decide_eq_false. Qed.

Lemma isYes_lower (u : string) : isYes (toLowerCase u) = isYes u.
Proof. unfold isYes. by rewrite toLowerCase_idem. Qed.

Lemma isNo_lower (u : string) : isNo (toLowerCase u) = isNo u.
Proof. unfold isNo. by rewrite toLowerCase_idem. Qed.

(** The two phrase sets have no phrase in common. *)
Lemma yes_no_disjoint (u : string) : isYes u = true -> isNo u = false.
Proof.
  unfold isYes, isNo. generalize (toLowerCase u) as k. intros k Hk.
  apply includes_true in Hk. unfold yesPhrases in Hk.
  repeat (apply elem_of_cons in Hk as [-> | Hk]; [vm_compute; reflexivity|]).
  by apply elem_of_nil in Hk.
Qed.

(** [k in o] is an own entry or an inherited property. *)
Lemma has_spec {V} (o : gmap string V) (k : string) :
  Js.has o k = Js.hasOwn o k || includes objectPrototype k.
Proof.
  unfold Js.has, Js.hasOwn, Js.get. destruct (o !! k) as [v|] eqn:E.
  - rewrite bool_decide_eq_true_2; [reflexivity | eauto].
  - rewrite bool_decide_eq_false_2; [| by intros [? ?]].
    simpl. by destruct (includes objectPrototype k).
Qed.

(** After case folding only two inherited names can be hit. *)
Lemma lowered_inherited (u : string) :
  includes objectPrototype (toLowerCase u) = true ->
  toLowerCase u = "constructor" \/ toLowerCase u = "__proto__".
Proof.
  pose proof (toLowerCase_idem u) as Hidem. revert Hidem.
  generalize (toLowerCase u) as k. intros k Hidem Hk.
  apply includes_true in Hk. unfold objectPrototype in Hk.
  repeat (apply elem_of_cons in Hk as [-> | Hk];
          [first [by left | by right | by vm_compute in Hidem] |]).
  by apply elem_of_nil in Hk.
Qed.

(** The weekday names are not inherited property names: for them the
    [in] test is membership in the table. *)
Lemma weekday_isInGrammar (u : string) :
  validateDay u = true -> isInGrammar u = Js.hasOwn grammar (toLowerCase u).
Proof.
  unfold validateDay, isInGrammar. rewrite has_spec.
  generalize (toLowerCase u) as k. intros k Hk.
  apply includes_true in Hk. unfold validDay in Hk.
  repeat (apply elem_of_cons in Hk as [-> | Hk]; [vm_compute; reflexivity|]).
  by apply elem_of_nil in Hk.
Qed.

(** A key of the table is in the grammar, with its entry's person. *)
Lemma lexicon_present (u : string) (e : GrammarEntry) :
  grammar !! toLowerCase u = Some e ->
  isInGrammar u = true /\ getPerson u = person e.
Proof.
  intros H. unfold isInGrammar, getPerson, Js.has, Js.get. by rewrite H.
Qed.

(** Without an entry the person lookup finds nothing. *)
Lemma getPerson_absent (u : string) :
  grammar !! toLowerCase u = None -> getPerson u = None.
Proof.
  intros H. unfold getPerson, Js.get. rewrite H.
  by destruct (includes objectPrototype (toLowerCase u)).
Qed.

(** Without an entry the membership test fails, the two inherited
    names apart. *)
Lemma isInGrammar_absent (u : string) :
  grammar !! toLowerCase u = None ->
  toLowerCase u <> "constructor" -> toLowerCase u <> "__proto__" ->
  isInGrammar u = false.
Proof.
  intros H Hc Hp. unfold isInGrammar. rewrite has_spec.
  unfold Js.hasOwn. rewrite bool_decide_eq_false_2; [| rewrite H; by intros [? ?]].
  simpl. destruct (includes objectPrototype (toLowerCase u)) eqn:E; [|reflexivity].
  apply lowered_inherited in E as [E|E]; contradiction.
Qed.

(** Both helpers read the utterance through its case folding only. *)
Lemma lexicon_case_insensitive (u v : string) :
  toLowerCase u = toLowerCase v ->
  isInGrammar u = isInGrammar v /\ getPerson u = getPerson v.
Proof. intros H. unfold isInGrammar, getPerson. by rewrite H. Qed.

(** The canonical values of the table. *)
Lemma getPerson_values :
  getPerson "Vlad" = Some "Vladislav Maraev" /\
  getPerson "AYA" = Some "Nayat Astaiza Soriano" /\
  getPerson "victoria" = Some "Victoria Daniilidou" /\
  getPerson "monday" = None /\
  getPerson "xyz" = None.
Proof. repeat split; vm_compute; reflexivity. Qed.

End LexiconFacts.

(** C6 (the lexicon resolver is an exact lookup on the case-folded
    utterance; an absent utterance is not in the grammar): the membership
    test [isInGrammar] is written with [in], which also finds the
    properties the table inherits from [Object.prototype]. The utterance
    "constructor" has no entry in the table, and [isInGrammar] answers
    true for it. *)
Theorem isInGrammar_inherited_name :
  grammar !! toLowerCase "constructor" = None /\
  Js.hasOwn grammar (toLowerCase "constructor") = false /\
  isInGrammar "constructor" = true /\
  getPerson "constructor" = None.
Proof. repeat split; vm_compute; reflexivity. Qed.

(** The inherited name passes the validation of AskTime and becomes the
    time of the appointment. *)
Lemma constructor_is_a_bookable_time (c : Dm.DMContext) :
  Dm.run (mkConfig (Dm.AskTime Dm.Time.Listen) c)
         [RECOGNISED (heard "constructor") None; LISTEN_COMPLETE]
  = Ok (mkConfig (Dm.AskTime Dm.Time.ValidInput)
                 (Dm.mkContext (Some (heard "constructor")) (Dm.nameResult c)
                               (Dm.dayResult c) (Some "constructor")),
        [SPEAK "ok, constructor"]).
Proof. destruct c as [l n d t]. vm_compute. reflexivity. Qed.

(** ** The interpreter *)
Section SelectFacts.

Context {Ctx T : Type}.

(** The candidate selected is one of the candidates. *)
Lemma select_elem (guardOf : T -> Guard Ctx) (ts : list T) (c : Ctx) (t : T) :
  select guardOf ts c = Ok (Some t) -> t ∈ ts.
Proof.
  induction ts as [|t' ts IH]; simpl; [discriminate|].
  destruct (guardOf t' c) as [[|]| |]; simpl; try discriminate.
  - intros [= ->]. apply list_elem_of_here.
  - intros H. apply list_elem_of_further. auto.
Qed.

End SelectFacts.

(** ** Agreement on the fields still read is kept by every step *)
Section SimulationFacts.

Context {State Ctx Event Command : Type}.
Variable M : Machine State Ctx Event Command.
Variable R : State -> Ctx -> Ctx -> Prop.

Local Abbreviation related := Simulation.related.
Local Abbreviation entering := (Simulation.entering M R).
Local Abbreviation alike := (Simulation.alike R).

Hypothesis on_guards : forall s ev c1 c2,
    R s c1 c2 -> Forall (fun tr => guard tr c1 = guard tr c2) (on M s ev).
Hypothesis on_actions : forall s ev c1 c2,
    R s c1 c2 ->
    Forall (fun tr => related (fun a b => match target tr with
                                          | Some s' => entering s' a b
                                          | None => R s a b
                                          end)
                              (actions tr c1) (actions tr c2))
           (on M s ev).
Hypothesis always_agree : forall s c1 c2,
    R s c1 c2 ->
    Forall (fun t => fst t c1 = fst t c2 /\ entering (snd t) c1 c2) (always M s).

Lemma select_agree {T} (guardOf : T -> Guard Ctx) (ts : list T) (c1 c2 : Ctx) :
  Forall (fun t => guardOf t c1 = guardOf t c2) ts ->
  select guardOf ts c1 = select guardOf ts c2.
Proof.
  induction 1 as [|t ts Ht _ IH]; simpl; [reflexivity|].
  rewrite Ht. destruct (guardOf t c2) as [[|]| |]; simpl; auto.
Qed.

Lemma settle_alike (fuel : nat) :
  forall s c1 c2 out,
    R s c1 c2 -> related alike (settle M fuel s c1 out) (settle M fuel s c2 out).
Proof.
  induction fuel as [|fuel IH]; intros s c1 c2 out HR; simpl; [exact I|].
  pose proof (always_agree s c1 c2 HR) as Hall.
  rewrite (select_agree fst (always M s) c1 c2)
    by (eapply Forall_impl; [exact Hall | intros ? [? _]; assumption]).
  destruct (select fst (always M s) c2) as [[[g s']|]| |] eqn:Hsel; simpl; auto.
  - apply select_elem in Hsel.
    rewrite Forall_forall in Hall. destruct (Hall _ Hsel) as [_ Hent].
    unfold Simulation.entering in Hent. simpl in Hent.
    destruct (entry M s' c1) as [[a o1]| |], (entry M s' c2) as [[b o2]| |];
      simpl in *; try contradiction; auto.
    destruct Hent as [HR' ->]. apply IH. exact HR'.
  - repeat split. exact HR.
Qed.

Lemma arrive_alike (s : State) (c1 c2 : Ctx) :
  entering s c1 c2 -> related alike (arrive M s c1) (arrive M s c2).
Proof.
  unfold Simulation.entering, arrive. intros Hent.
  destruct (entry M s c1) as [[a o1]| |], (entry M s c2) as [[b o2]| |];
    try exact Hent; try (destruct Hent; fail).
  destruct Hent as [HR' Ho]. simpl in Ho. subst o2.
  exact (settle_alike bound s a b o1 HR').
Qed.

(** The same event received in the same state with agreeing contexts:
    the two steps have the same kind of outcome and, when they return,
    end in the same state with agreeing contexts and the same commands. *)
Lemma step_alike (s : State) (c1 c2 : Ctx) (ev : Event) :
  R s c1 c2 ->
  related alike (step M (mkConfig s c1) ev) (step M (mkConfig s c2) ev).
Proof.
  intros HR. unfold step. cbn [st ctx].
  rewrite (select_agree guard (on M s ev) c1 c2) by (apply on_guards; exact HR).
  destruct (select guard (on M s ev) c2) as [[tr|]| |] eqn:Hsel;
    [| repeat split; exact HR | reflexivity | exact I].
  apply select_elem in Hsel.
  pose proof (on_actions s ev c1 c2 HR) as Hact.
  rewrite Forall_forall in Hact. specialize (Hact _ Hsel).
  cbn [mbind Res_bind].
  destruct (actions tr c1) as [a| |], (actions tr c2) as [b| |];
    try exact Hact; try (destruct Hact; fail).
  cbn [Simulation.related] in Hact.
  destruct (target tr) as [s'|].
  - exact (arrive_alike s' a b Hact).
  - exact (settle_alike bound s a b [] Hact).
Qed.

(** The same for a sequence of events. *)
Lemma run_alike (evs : list Event) :
  forall s c1 c2,
    R s c1 c2 ->
    related alike (run M (mkConfig s c1) evs) (run M (mkConfig s c2) evs).
Proof.
  induction evs as [|ev evs IH]; intros s c1 c2 HR; cbn [run].
  - repeat split. exact HR.
  - pose proof (step_alike s c1 c2 ev HR) as Hstep.
    destruct (step M (mkConfig s c1) ev) as [[[s1 a] o1]| |],
             (step M (mkConfig s c2) ev) as [[[s2 b] o2]| |];
      try exact Hstep; try (destruct Hstep; fail).
    destruct Hstep as (Hs & HR' & Ho). cbn [fst snd st ctx] in Hs, HR', Ho. subst s2 o2.
    specialize (IH s1 a b HR'). cbn [mbind Res_bind].
    destruct (run M (mkConfig s1 a) evs) as [[[s1' a'] o1']| |],
             (run M (mkConfig s1 b) evs) as [[[s2' b'] o2']| |];
      try exact IH; try (destruct IH; fail).
    destruct IH as (Hs & HR'' & Ho). cbn [fst snd st ctx] in Hs, HR'', Ho. subst s2' o2'.
    repeat split. exact HR''.
Qed.

End SimulationFacts.

(** ** The grammar machine never reads a slot of an earlier booking *)

Ltac agree_cases :=
  intros s c1 c2 H; destruct c1 as [l1 n1 d1 t1], c2 as [l2 n2 d2 t2];
  destruct s as [| | |ch|ch|ch|ch|ch|]; try destruct ch;
  cbv [Dm.agree Dm.forget Dm.readsName Dm.readsDay Dm.readsTime
       Dm.lastResult Dm.nameResult Dm.dayResult Dm.timeResult] in H;
  injection H as ?; subst.

Lemma Dm_on_guards (s : Dm.State) (ev : Event) (c1 c2 : Dm.DMContext) :
  Dm.agree s c1 c2 ->
  Forall (fun tr => guard tr c1 = guard tr c2) (on Dm.dmMachine s ev).
Proof.
  revert s c1 c2. agree_cases; destruct ev; cbn; repeat constructor.
Qed.

Lemma Dm_entering (s' : Dm.State) (l : option (list Hyp)) (n1 n2 d1 d2 t1 t2 : option string) :
  (Dm.readsName s' = true -> s' <> Dm.AskName Dm.Name.ValidInput -> n1 = n2) ->
  (Dm.readsDay s' = true -> s' <> Dm.AskDay Dm.Day.ValidInput -> d1 = d2) ->
  (Dm.readsTime s' = true -> s' <> Dm.AskFullDay Dm.YesNo.WholeDay ->
   s' <> Dm.AskTime Dm.Time.ValidInput -> s' <> Dm.AskConfirm Dm.YesNo.WholeDay -> t1 = t2) ->
  Simulation.entering Dm.dmMachine Dm.agree s'
    (Dm.mkContext l n1 d1 t1) (Dm.mkContext l n2 d2 t2).
Proof.
  intros Hn Hd Ht.
  destruct s' as [| | |ch|ch|ch|ch|ch|]; try destruct ch;
    cbv [Dm.readsName Dm.readsDay Dm.readsTime] in Hn, Hd, Ht;
    try (specialize (Hn eq_refl); try (specialize (Hn ltac:(discriminate)); subst n2));
    try (specialize (Hd eq_refl); try (specialize (Hd ltac:(discriminate)); subst d2));
    try (specialize (Ht eq_refl ltac:(discriminate) ltac:(discriminate) ltac:(discriminate));
         subst t2);
    try (split; reflexivity);
    destruct l as [[|h r]|]; try reflexivity; split; reflexivity.
Qed.

Lemma Dm_on_actions (s : Dm.State) (ev : Event) (c1 c2 : Dm.DMContext) :
  Dm.agree s c1 c2 ->
  Forall (fun tr =>
            Simulation.related
              (fun a b => match target tr with
                          | Some s' => Simulation.entering Dm.dmMachine Dm.agree s' a b
                          | None => Dm.agree s a b
                          end)
              (actions tr c1) (actions tr c2))
         (on Dm.dmMachine s ev).
Proof.
  revert s c1 c2. agree_cases; destruct ev; cbn;
    repeat (constructor; [first [reflexivity | apply Dm_entering; cbn; congruence] |]);
    constructor.
Qed.

Lemma Dm_always_agree (s : Dm.State) (c1 c2 : Dm.DMContext) :
  Dm.agree s c1 c2 ->
  Forall (fun t => fst t c1 = fst t c2 /\
                   Simulation.entering Dm.dmMachine Dm.agree (snd t) c1 c2)
         (always Dm.dmMachine s).
Proof.
  revert s c1 c2. agree_cases; cbn;
    repeat (constructor; [split; [reflexivity | apply Dm_entering; cbn; congruence] |]);
    constructor.
Qed.

(** Whatever the events, two runs of the grammar machine from the same
    state with contexts that agree there visit the same states and send
    the same commands. *)
Lemma Dm_run_alike (evs : list Event) (s : Dm.State) (c1 c2 : Dm.DMContext) :
  Dm.agree s c1 c2 ->
  Simulation.related (Simulation.alike Dm.agree)
                     (Dm.run (mkConfig s c1) evs) (Dm.run (mkConfig s c2) evs).
Proof.
  apply (run_alike Dm.dmMachine Dm.agree).
  - exact Dm_on_guards.
  - exact Dm_on_actions.
  - exact Dm_always_agree.
Qed.

(** ** Every step settles within the bound *)
Section Settles.

Context {State Ctx Event Command : Type}.
Variable M : Machine State Ctx Event Command.

(** A measure that every eventless transition decreases. *)
Variable rank : State -> nat.

Hypothesis on_returns : forall s ev c,
    Forall (fun tr => guard tr c <> Unsettled /\ actions tr c <> Unsettled) (on M s ev).
Hypothesis always_returns : forall s c,
    Forall (fun t => fst t c <> Unsettled /\ rank (snd t) < rank s) (always M s).
Hypothesis entry_returns : forall s c, entry M s c <> Unsettled.
Hypothesis rank_bound : forall s, rank s < bound.

Lemma select_returns {T} (guardOf : T -> Guard Ctx) (ts : list T) (c : Ctx) :
  Forall (fun t => guardOf t c <> Unsettled) ts ->
  select guardOf ts c <> Unsettled.
Proof.
  induction 1 as [|t ts Ht _ IH]; simpl; [discriminate|].
  destruct (guardOf t c) as [[|]| |]; simpl;
    try discriminate; try assumption; try (exfalso; apply Ht; reflexivity).
Qed.

Lemma settle_returns (fuel : nat) :
  forall s c out, rank s < fuel -> settle M fuel s c out <> Unsettled.
Proof.
  induction fuel as [|fuel IH]; intros s c out Hr; [lia|].
  cbn [settle].
  pose proof (always_returns s c) as Hall.
  destruct (select fst (always M s) c) as [[[g s']|]| |] eqn:Hsel;
    cbn [mbind Res_bind mret Res_ret]; try discriminate.
  - apply select_elem in Hsel. rewrite Forall_forall in Hall.
    destruct (Hall _ Hsel) as [_ Hlt]. cbn [snd] in Hlt.
    pose proof (entry_returns s' c) as He.
    destruct (entry M s' c) as [[c' out']| |]; cbn [mbind Res_bind mret Res_ret];
      [apply IH; lia | discriminate | exfalso; apply He; reflexivity].
  - exfalso. revert Hsel. apply select_returns.
    eapply Forall_impl; [exact Hall | intros ? [? _]; assumption].
Qed.

Lemma arrive_returns (s : State) (c : Ctx) : arrive M s c <> Unsettled.
Proof.
  unfold arrive. pose proof (entry_returns s c) as He.
  destruct (entry M s c) as [[c' out']| |]; cbn [mbind Res_bind mret Res_ret];
    [apply settle_returns, rank_bound | discriminate | exfalso; apply He; reflexivity].
Qed.

(** A step returns a configuration or throws. *)
Lemma step_returns (cfg : Config State Ctx) (ev : Event) :
  step M cfg ev <> Unsettled.
Proof.
  unfold step. pose proof (on_returns (st cfg) ev (ctx cfg)) as Hon.
  destruct (select guard (on M (st cfg) ev) (ctx cfg)) as [[tr|]| |] eqn:Hsel;
    cbn [mbind Res_bind mret Res_ret]; try discriminate.
  - apply select_elem in Hsel. rewrite Forall_forall in Hon.
    destruct (Hon _ Hsel) as [_ Hact].
    destruct (actions tr (ctx cfg)) as [c1| |]; cbn [mbind Res_bind mret Res_ret];
      [| discriminate | exfalso; apply Hact; reflexivity].
    destruct (target tr) as [s'|].
    + apply arrive_returns.
    + apply settle_returns, rank_bound.
  - exfalso. revert Hsel. apply select_returns.
    eapply Forall_impl; [exact Hon | intros ? [? _]; assumption].
Qed.

End Settles.

(** An outcome that is stuck on tests only is not [Unsettled]. *)
Ltac returns :=
  let H := fresh "H" in
  intros H; explore H; discriminate H.

Lemma Dm_step_returns (cfg : Config Dm.State Dm.DMContext) (ev : Event) :
  Dm.step cfg ev <> Unsettled.
Proof.
  apply (step_returns Dm.dmMachine Dm.rank).
  - intros s ev' [l n d t].
    destruct s as [| | |ch|ch|ch|ch|ch|]; try destruct ch; destruct ev';
      cbn [on Dm.dmMachine Dm.on Dm.onOwn Dm.onParent Dm.onSpeakComplete Dm.listening app];
      repeat (constructor; [split; returns |]); constructor.
  - intros s [l n d t].
    destruct s as [| | |ch|ch|ch|ch|ch|]; try destruct ch;
      cbn [always Dm.dmMachine Dm.always];
      repeat (constructor; [split; [returns | vm_compute; lia] |]); constructor.
  - intros s [l n d t].
    destruct s as [| | |ch|ch|ch|ch|ch|]; try destruct ch; returns.
  - intros s. destruct s as [| | |ch|ch|ch|ch|ch|]; try destruct ch; vm_compute; lia.
Qed.

Lemma Dm4_step_returns (cfg : Config Dm4.State Dm4.DMContext) (ev : Event) :
  Dm4.step cfg ev <> Unsettled.
Proof.
  apply (step_returns Dm4.dmMachine Dm4.rank).
  - intros s ev' [l n d t i e].
    destruct s as [| | |ch| |ch|ch|ch|ch|ch| |]; try destruct ch; destruct ev';
      cbn [on Dm4.dmMachine Dm4.on Dm4.onOwn Dm4.onParent Dm4.onSpeakComplete
           Dm4.listening Dm4.listeningNlu app];
      repeat (constructor; [split; returns |]); constructor.
  - intros s [l n d t i e].
    destruct s as [| | |ch| |ch|ch|ch|ch|ch| |]; try destruct ch;
      cbn [always Dm4.dmMachine Dm4.always];
      repeat (constructor; [split; [returns | vm_compute; lia] |]); constructor.
  - intros s [l n d t i e].
    destruct s as [| | |ch| |ch|ch|ch|ch|ch| |]; try destruct ch; returns.
  - intros s. destruct s as [| | |ch| |ch|ch|ch|ch|ch| |]; try destruct ch; vm_compute; lia.
Qed.

(** ** Validation of the day (both machines) *)

(** C4 (AskDay validation): with a recognised top utterance [u], entering
    AskDay.ValidateInput ends in exactly one of three states, decided by
    whether [u] is one of the seven weekday names and whether its case
    folding is a key of the grammar: not a weekday, InvalidDay with the
    "not a valid weekday name" apology; a weekday outside the grammar,
    InvalidInput with the "not bookable" apology; a weekday in the
    grammar, ValidInput. The same holds in the grammar machine and in the
    NLU machine. *)
Theorem AskDay_validation_three_way :
  (forall (c : Dm.DMContext) (h : Hyp) (rest : list Hyp),
      Dm.lastResult c = Some (h :: rest) ->
      exists cfg out,
        Dm.arrive (Dm.AskDay Dm.Day.ValidateInput) c = Ok (cfg, out) /\
        ((validateDay (utterance h) = false /\
          cfg = mkConfig (Dm.AskDay Dm.Day.InvalidDay) c /\
          out = [SPEAK ("sorry, but " ++ utterance h ++ " is not a valid weekday name.")])
         \/
         (validateDay (utterance h) = true /\
          Js.hasOwn grammar (toLowerCase (utterance h)) = false /\
          cfg = mkConfig (Dm.AskDay Dm.Day.InvalidInput) c /\
          out = [SPEAK ("sorry, but " ++ utterance h
                        ++ " does not seem to be a bookable day in our system.")])
         \/
         (validateDay (utterance h) = true /\
          Js.hasOwn grammar (toLowerCase (utterance h)) = true /\
          st cfg = Dm.AskDay Dm.Day.ValidInput)))
  /\
  (forall (c : Dm4.DMContext) (h : Hyp) (rest : list Hyp),
      Dm4.lastResult c = Dm4.Hyps (h :: rest) ->
      exists cfg out,
        Dm4.arrive (Dm4.AskDay Dm4.Day.ValidateInput) c = Ok (cfg, out) /\
        ((validateDay (utterance h) = false /\
          cfg = mkConfig (Dm4.AskDay Dm4.Day.InvalidDay) c /\
          out = [SPEAK ("sorry, but " ++ utterance h ++ " is not a valid weekday name.")])
         \/
         (validateDay (utterance h) = true /\
          Js.hasOwn grammar (toLowerCase (utterance h)) = false /\
          cfg = mkConfig (Dm4.AskDay Dm4.Day.InvalidInput) c /\
          out = [SPEAK ("sorry, but " ++ utterance h
                        ++ " does not seem to be a bookable day in our system.")])
         \/
         (validateDay (utterance h) = true /\
          Js.hasOwn grammar (toLowerCase (utterance h)) = true /\
          st cfg = Dm4.AskDay Dm4.Day.ValidInput))).
Proof.
  split.
  - intros [lr n d t] h rest HL; simpl in HL; subst lr.
    destruct (validateDay (utterance h)) eqn:Hd.
    + pose proof (weekday_isInGrammar _ Hd) as Hown.
      destruct (Js.hasOwn grammar (toLowerCase (utterance h))) eqn:Hg.
      * eexists _, _. split.
        { crunch. rewrite Hd. crunch. rewrite Hown. crunch. reflexivity. }
        right; right. repeat split; reflexivity.
      * eexists _, _. split.
        { crunch. rewrite Hd. crunch. rewrite Hown. crunch. reflexivity. }
        right; left. repeat split; reflexivity.
    + eexists _, _. split.
      { crunch. rewrite Hd. crunch. reflexivity. }
      left. repeat split; reflexivity.
  - intros [lr n d t i e] h rest HL; simpl in HL; subst lr.
    destruct (validateDay (utterance h)) eqn:Hd.
    + pose proof (weekday_isInGrammar _ Hd) as Hown.
      destruct (Js.hasOwn grammar (toLowerCase (utterance h))) eqn:Hg.
      * eexists _, _. split.
        { crunch. rewrite Hd. crunch. rewrite Hown. crunch. reflexivity. }
        right; right. repeat split; reflexivity.
      * eexists _, _. split.
        { crunch. rewrite Hd. crunch. rewrite Hown. crunch. reflexivity. }
        right; left. repeat split; reflexivity.
    + eexists _, _. split.
      { crunch. rewrite Hd. crunch. reflexivity. }
      left. repeat split; reflexivity.
Qed.

(** ** Validation of a yes/no answer (both machines) *)

(** C5 (yes/no steps): with a recognised top utterance, entering the
    ValidateInput state of AskFullDay or of AskConfirm takes the
    affirmative branch for an utterance of the yes phrases (WholeDay,
    resp. Done or DoneMeeting), the negative branch for an utterance of
    the no phrases (AskTime, resp. AskName), and for an utterance of
    neither set ends in InvalidInput, whose apology is followed by the
    prompt of the same step. *)
Theorem yes_no_validation :
  (forall (c : Dm.DMContext) (h : Hyp) (rest : list Hyp),
      Dm.lastResult c = Some (h :: rest) ->
      (isYes (utterance h) = true ->
       Dm.arrive (Dm.AskFullDay Dm.YesNo.ValidateInput) c
       = Ok (mkConfig (Dm.AskFullDay Dm.YesNo.WholeDay)
                      (Dm.set_timeResult (Some "whole day") c),
             [SPEAK "ok, whole day"]) /\
       Dm.arrive (Dm.AskConfirm Dm.YesNo.ValidateInput) c
       = Ok (mkConfig Dm.Done c, [SPEAK "Your appointment has been created!"]))
      /\
      (isNo (utterance h) = true ->
       Dm.arrive (Dm.AskFullDay Dm.YesNo.ValidateInput) c
       = Ok (mkConfig (Dm.AskTime Dm.Time.PromptForTime) c,
             [SPEAK "What time is your meeting?"]) /\
       Dm.arrive (Dm.AskConfirm Dm.YesNo.ValidateInput) c
       = Ok (mkConfig (Dm.AskName Dm.Name.PromptForName) c,
             [SPEAK "Who are you meeting with?"]))
      /\
      (isYes (utterance h) = false -> isNo (utterance h) = false ->
       Dm.arrive (Dm.AskFullDay Dm.YesNo.ValidateInput) c
       = Ok (mkConfig (Dm.AskFullDay Dm.YesNo.InvalidInput) c,
             [SPEAK ("sorry, but I heard " ++ utterance h
                     ++ ". Please answer with yes or no.")]) /\
       Dm.step (mkConfig (Dm.AskFullDay Dm.YesNo.InvalidInput) c) SPEAK_COMPLETE
       = Dm.arrive (Dm.AskFullDay Dm.YesNo.PromptForYesNo) c /\
       Dm.arrive (Dm.AskConfirm Dm.YesNo.ValidateInput) c
       = Ok (mkConfig (Dm.AskConfirm Dm.YesNo.InvalidInput) c,
             [SPEAK ("sorry, but I heard " ++ utterance h
                     ++ ". Please answer with yes or no.")]) /\
       Dm.step (mkConfig (Dm.AskConfirm Dm.YesNo.InvalidInput) c) SPEAK_COMPLETE
       = Dm.arrive (Dm.AskConfirm Dm.YesNo.PromptForYesNo) c))
  /\
  (forall (c : Dm4.DMContext) (h : Hyp) (rest : list Hyp),
      Dm4.lastResult c = Dm4.Hyps (h :: rest) ->
      (isYes (utterance h) = true ->
       Dm4.eventless (Dm4.AskFullDay Dm4.FullDay.ValidateInput) c
       = Ok (Some (Dm4.AskFullDay Dm4.FullDay.WholeDay)) /\
       Dm4.eventless (Dm4.AskConfirm Dm4.Confirm.ValidateInput) c
       = Ok (Some Dm4.DoneMeeting))
      /\
      (isNo (utterance h) = true ->
       Dm4.eventless (Dm4.AskFullDay Dm4.FullDay.ValidateInput) c
       = Ok (Some Dm4.toAskTime) /\
       Dm4.eventless (Dm4.AskConfirm Dm4.Confirm.ValidateInput) c
       = Ok (Some Dm4.toAskName))
      /\
      (isYes (utterance h) = false -> isNo (utterance h) = false ->
       Dm4.arrive (Dm4.AskFullDay Dm4.FullDay.ValidateInput) c
       = Ok (mkConfig (Dm4.AskFullDay Dm4.FullDay.InvalidInput) c,
             [SPEAK ("sorry, but I heard " ++ utterance h
                     ++ ". Please answer with yes or no.")]) /\
       Dm4.step (mkConfig (Dm4.AskFullDay Dm4.FullDay.InvalidInput) c) SPEAK_COMPLETE
       = Dm4.arrive (Dm4.AskFullDay Dm4.FullDay.PromptForYesNo) c /\
       Dm4.arrive (Dm4.AskConfirm Dm4.Confirm.ValidateInput) c
       = Ok (mkConfig (Dm4.AskConfirm Dm4.Confirm.InvalidInput) c,
             [SPEAK ("sorry, but I heard " ++ utterance h
                     ++ ". Please answer with yes or no.")]) /\
       Dm4.step (mkConfig (Dm4.AskConfirm Dm4.Confirm.InvalidInput) c) SPEAK_COMPLETE
       = Dm4.arrive (Dm4.AskConfirm Dm4.Confirm.PromptForYesNo) c)).
Proof.
  split.
  - intros [lr n d t] h rest HL; simpl in HL; subst lr.
    split; [| split].
    + intros Hy. pose proof (yes_no_disjoint _ Hy) as Hn.
      split; crunch; rewrite isNo_lower, ?isYes_lower, Hn, Hy; reflexivity.
    + intros Hn. split; crunch; rewrite isNo_lower, Hn; reflexivity.
    + intros Hy Hn.
      repeat split; crunch; rewrite ?isNo_lower, ?isYes_lower, ?Hn, ?Hy; reflexivity.
  - intros [lr n d t i e] h rest HL; simpl in HL; subst lr.
    split; [| split].
    + intros Hy. pose proof (yes_no_disjoint _ Hy) as Hn.
      split; crunch; rewrite isNo_lower, ?isYes_lower, Hn, Hy; reflexivity.
    + intros Hn. split; crunch; rewrite isNo_lower, Hn; reflexivity.
    + intros Hy Hn.
      repeat split; crunch; rewrite ?isNo_lower, ?isYes_lower, ?Hn, ?Hy; reflexivity.
Qed.

(** ** A turn without input *)

(** The prompt of each step of the grammar machine speaks one sentence
    and leaves the context alone. *)
Lemma Dm_prompt_speaks (sl : Dm.Slot) (c : Dm.DMContext) :
  exists prompt,
    Dm.arrive (Dm.promptOf sl) c = Ok (mkConfig (Dm.promptOf sl) c, [SPEAK prompt]).
Proof. destruct sl; eexists; reflexivity. Qed.

(** C9 (no input, grammar machine): in every child state of a
    slot-filling step, LISTEN_COMPLETE with [lastResult] null leads to the
    NoInput state of that step, and SPEAK_COMPLETE there leads to the
    prompt of that step; the context, hence every slot value, is the same
    before and after. The ASR_NOINPUT event that precedes such a turn
    sets [lastResult] to null and changes nothing else. *)
Theorem no_input_returns_to_same_prompt :
  forall (sl : Dm.Slot) (s : Dm.State) (c : Dm.DMContext),
    Dm.within sl s = true ->
    Dm.lastResult c = None ->
    Dm.step (mkConfig s c) LISTEN_COMPLETE
    = Ok (mkConfig (Dm.noInputOf sl) c, [SPEAK "Sorry, I didn't hear anything!"]) /\
    (exists prompt,
        Dm.step (mkConfig (Dm.noInputOf sl) c) SPEAK_COMPLETE
        = Ok (mkConfig (Dm.promptOf sl) c, [SPEAK prompt])) /\
    (forall c0 : Dm.DMContext,
        Dm.step (mkConfig (Dm.listenOf sl) c0) ASR_NOINPUT
        = Ok (mkConfig (Dm.listenOf sl)
                       (Dm.mkContext None (Dm.nameResult c0) (Dm.dayResult c0)
                                     (Dm.timeResult c0)),
              [])).
Proof.
  intros sl s [lr n d t] Hin HL; simpl in HL; subst lr.
  destruct sl, s as [| | |ch|ch|ch|ch|ch|]; try discriminate Hin;
    (split; [destruct ch; reflexivity
            | split; [eexists; reflexivity | intros [l0 n0 d0 t0]; reflexivity]]).
Qed.

(** The two steps of the NLU machine that test [lastResult] itself,
    AskWhat and AskConfirm, treat a turn without input as the grammar
    machine does. *)
Lemma Dm4_no_input_AskWhat_AskConfirm (c : Dm4.DMContext) :
  Dm4.lastResult c = Dm4.Null ->
  (forall ch : Dm4.What.child,
      Dm4.step (mkConfig (Dm4.AskWhat ch) c) LISTEN_COMPLETE
      = Ok (mkConfig (Dm4.AskWhat Dm4.What.NoInput) c,
            [SPEAK "Sorry, I didn't hear anything!"]))
  /\
  (forall ch : Dm4.Confirm.child,
      Dm4.step (mkConfig (Dm4.AskConfirm ch) c) LISTEN_COMPLETE
      = Ok (mkConfig (Dm4.AskConfirm Dm4.Confirm.NoInput) c,
            [SPEAK "Sorry, I didn't hear anything!"])).
Proof.
  destruct c as [lr n d t i e]; simpl; intros ->.
  split; intros ch; destruct ch; reflexivity.
Qed.

(** LISTEN_COMPLETE is handled by the compound state, whatever child
    the machine is in: the guard is evaluated, then ValidateInput or
    NoInput is entered. *)
Lemma Dm4_listen_complete (sl : Dm4.Slot) (s : Dm4.State) (c : Dm4.DMContext) :
  Dm4.within sl s = true ->
  Dm4.step (mkConfig s c) LISTEN_COMPLETE
  = (b ← Dm4.slotOrHeard (Dm4.slotValue sl) c;
     if b : bool then Dm4.arrive (Dm4.validateOf sl) c
     else Dm4.arrive (Dm4.noInputOf sl) c).
Proof.
  intros Hin.
  destruct sl, s as [| | |ch| |ch|ch|ch|ch|ch| |]; try discriminate Hin;
    destruct ch;
    unfold Dm4.arrive;
    cbv -[Dm4.slotOrHeard XState.arrive XState.settle Dm4.entry Dm4.always];
    match goal with
    | |- context [Dm4.slotOrHeard ?f c] => destruct (Dm4.slotOrHeard f c) as [[|]| |]
    end; reflexivity.
Qed.

Lemma truthy_false (s : string) : truthy s = false -> s = "".
Proof.
  unfold truthy. intros H. apply negb_false_iff in H. by apply String.eqb_eq.
Qed.

(** Validation never ends in the NoInput state of its step. *)
Lemma Dm4_validate_not_NoInput (sl : Dm4.Slot) (c : Dm4.DMContext)
      (cfg : Config Dm4.State Dm4.DMContext) (out : list Command) :
  Dm4.arrive (Dm4.validateOf sl) c = Ok (cfg, out) -> st cfg <> Dm4.noInputOf sl.
Proof.
  intros H. destruct c as [lr n d t i e].
  destruct sl; explore H; try discriminate H; injection H as <- <-; discriminate.
Qed.

(** The only way into NoInput in the four steps: the slot is empty and
    the recogniser has reported an empty utterance. *)
Lemma Dm4_NoInput_only_after_empty_utterance
      (sl : Dm4.Slot) (s : Dm4.State) (c : Dm4.DMContext)
      (cfg : Config Dm4.State Dm4.DMContext) (out : list Command) :
  Dm4.within sl s = true ->
  Dm4.step (mkConfig s c) LISTEN_COMPLETE = Ok (cfg, out) ->
  st cfg = Dm4.noInputOf sl ->
  Dm4.slotValue sl c = "" /\
  exists h rest, Dm4.lastResult c = Dm4.Hyps (h :: rest) /\ utterance h = "".
Proof.
  intros Hin H Hst. rewrite (Dm4_listen_complete sl s _ Hin) in H. clear s Hin.
  unfold Dm4.slotOrHeard, Dm4.topUtterance in H.
  destruct (truthy (Dm4.slotValue sl c)) eqn:Hslot; cbn [mbind Res_bind mret Res_ret] in H.
  - exfalso. exact (Dm4_validate_not_NoInput _ _ _ _ H Hst).
  - split; [by apply truthy_false|].
    destruct (Dm4.lastResult c) as [|[|h rest]|]; cbn [mbind Res_bind mret Res_ret] in H;
      try discriminate H.
    destruct (truthy (utterance h)) eqn:Hu.
    + exfalso. exact (Dm4_validate_not_NoInput _ _ _ _ H Hst).
    + eexists _, _. split; [reflexivity | by apply truthy_false].
Qed.

(** C10 (no input, NLU machine): in AskName, AskDay, AskFullDay and
    AskTime the guard of LISTEN_COMPLETE reads [lastResult[0]] once the
    slot it tests is empty; with [lastResult] null that read throws, and
    so does the step. With [lastResult] null the step never ends in the
    NoInput state of the slot. *)
Theorem listen_complete_guard_dereferences_null :
  forall (sl : Dm4.Slot) (s : Dm4.State) (c : Dm4.DMContext),
    Dm4.within sl s = true ->
    Dm4.lastResult c = Dm4.Null ->
    (Dm4.slotValue sl c = "" ->
     Dm4.slotOrHeard (Dm4.slotValue sl) c = Throw TypeError /\
     Dm4.step (mkConfig s c) LISTEN_COMPLETE = Throw TypeError) /\
    (forall cfg out,
        Dm4.step (mkConfig s c) LISTEN_COMPLETE = Ok (cfg, out) ->
        st cfg <> Dm4.noInputOf sl).
Proof.
  intros sl s [lr n d t i e] Hin HL; simpl in HL; subst lr.
  rewrite (Dm4_listen_complete sl s _ Hin). clear s Hin.
  split.
  - intros Hs. destruct sl; simpl in Hs; subst; split; reflexivity.
  - intros cfg out H.
    unfold Dm4.slotOrHeard, Dm4.topUtterance in H. cbn [Dm4.lastResult] in H.
    destruct (truthy (Dm4.slotValue sl _)); cbn [mbind Res_bind mret Res_ret] in H;
      [| discriminate H].
    exact (Dm4_validate_not_NoInput _ _ _ _ H).
Qed.

(** ** The routing step of the NLU machine *)

Lemma eqb_differs (a b : string) : a <> b -> String.eqb a b = false.
Proof. apply String.eqb_neq. Qed.

(** The intent "None" takes the invalid-input path: the apology, then
    the prompt of AskWhat again. *)
Lemma AskWhat_None_reprompts (c : Dm4.DMContext) :
  Dm4.nluIntent c = "None" ->
  Dm4.arrive (Dm4.AskWhat Dm4.What.ValidateInput) c
  = Ok (mkConfig (Dm4.AskWhat Dm4.What.InvalidInput) c,
        [SPEAK "Sorry, I didn't understand that. You can ask to make an appointment or ask about a person."])
  /\
  Dm4.step (mkConfig (Dm4.AskWhat Dm4.What.InvalidInput) c) SPEAK_COMPLETE
  = Ok (mkConfig (Dm4.AskWhat Dm4.What.PromptForWhat) c,
        [SPEAK "What can I help you with?"]).
Proof.
  destruct c as [lr n d t i e]. simpl. intros ->. split; reflexivity.
Qed.

(** Any other intent than "None" is accepted by ValidateInput, and
    ValidInput routes "CreateMeeting" and "WhoIs" only: with an intent
    outside the three, no event moves the machine out of ValidInput. *)
Lemma AskWhat_ValidInput_absorbing (c : Dm4.DMContext) (ev : Event) :
  Dm4.nluIntent c <> "None" ->
  Dm4.nluIntent c <> "CreateMeeting" ->
  Dm4.nluIntent c <> "WhoIs" ->
  Dm4.lastResult c <> Dm4.Null ->
  exists out,
    Dm4.step (mkConfig (Dm4.AskWhat Dm4.What.ValidInput) c) ev
    = Ok (mkConfig (Dm4.AskWhat Dm4.What.ValidInput) c, out).
Proof.
  destruct c as [lr n d t i e]. simpl. intros Hn Hc Hw Hl.
  apply eqb_differs in Hn, Hc, Hw.
  destruct ev; try (eexists; reflexivity).
  - eexists. crunch. rewrite Hc. crunch. rewrite Hw. reflexivity.
  - destruct lr; [contradiction | |];
      (eexists; crunch; rewrite Hn; reflexivity).
Qed.

(** C7 (an intent outside CreateMeeting and WhoIs is treated as None and
    re-prompted): the intent "Cancel" is accepted by ValidateInput, the
    machine says "All right, let's go!" and enters ValidInput; when that
    sentence has been spoken no transition is enabled, nothing is said
    and the machine stays in ValidInput. *)
Theorem AskWhat_unlisted_intent_stuck :
  Dm4.run (mkConfig (Dm4.AskWhat Dm4.What.Listen) Dm4.initialContext)
          [RECOGNISED (heard "cancel my meeting") (Some (mkNlu "Cancel" None));
           LISTEN_COMPLETE]
  = Ok (mkConfig (Dm4.AskWhat Dm4.What.ValidInput)
                 (Dm4.mkContext (Dm4.Nlu (mkNlu "Cancel" None)) "" "" "" "Cancel" None),
        [SPEAK "All right, let's go!"])
  /\
  Dm4.step (mkConfig (Dm4.AskWhat Dm4.What.ValidInput)
                     (Dm4.mkContext (Dm4.Nlu (mkNlu "Cancel" None)) "" "" "" "Cancel" None))
           SPEAK_COMPLETE
  = Ok (mkConfig (Dm4.AskWhat Dm4.What.ValidInput)
                 (Dm4.mkContext (Dm4.Nlu (mkNlu "Cancel" None)) "" "" "" "Cancel" None),
        []).
Proof. split; vm_compute; reflexivity. Qed.

(** The loop over the entities keeps the text of the last person name. *)
Lemma scan_other (updates : Dm4.Updates) (e : Entity) :
  category e <> "personName" ->
  Dm4.upd_nameResult (Dm4.scan updates e) = Dm4.upd_nameResult updates.
Proof.
  intros H. unfold Dm4.scan. rewrite (eqb_differs _ _ H).
  destruct (String.eqb (category e) "apptTime"); [reflexivity|].
  destruct (String.eqb (category e) "apptDay"); reflexivity.
Qed.

Lemma scan_others (post : list Entity) (updates : Dm4.Updates) :
  Forall (fun e' => category e' <> "personName") post ->
  Dm4.upd_nameResult (fold_left Dm4.scan post updates) = Dm4.upd_nameResult updates.
Proof.
  intros H. revert updates.
  induction H as [|e' post He' _ IH]; intros updates; simpl; [reflexivity|].
  rewrite IH. by apply scan_other.
Qed.

Lemma scan_last_person (pre post : list Entity) (e : Entity) (updates : Dm4.Updates) :
  category e = "personName" ->
  Forall (fun e' => category e' <> "personName") post ->
  Dm4.upd_nameResult (fold_left Dm4.scan (pre ++ e :: post) updates) = Some (text e).
Proof.
  intros He Hpost. rewrite fold_left_app. simpl. rewrite scan_others by assumption.
  unfold Dm4.scan. rewrite He. reflexivity.
Qed.

(** C8 (CreateMeeting with a person name): when the result recognised in
    AskWhat.Listen has the intent CreateMeeting and a personName entity
    with a text, the action stores the text of the last such entity in
    [nameResult]; LISTEN_COMPLETE leads to ValidInput; and when
    "All right, let's go!" has been spoken, AskName.CheckForName goes to
    ValidateInput, so that the step is the one of entering
    AskName.ValidateInput with the stored name: PromptForName and Listen
    are not entered. *)
Theorem CreateMeeting_person_entity_skips_prompt :
  forall (c : Dm4.DMContext) (value : list Hyp) (v : NluValue)
         (pre post : list Entity) (e : Entity),
    topIntent v = "CreateMeeting" ->
    entities v = Some (pre ++ e :: post) ->
    category e = "personName" ->
    Forall (fun e' => category e' <> "personName") post ->
    text e <> "" ->
    exists c1,
      Dm4.run (mkConfig (Dm4.AskWhat Dm4.What.Listen) c)
              [RECOGNISED value (Some v); LISTEN_COMPLETE]
      = Ok (mkConfig (Dm4.AskWhat Dm4.What.ValidInput) c1, [SPEAK "All right, let's go!"])
      /\ Dm4.nameResult c1 = text e
      /\ Dm4.eventless (Dm4.AskName Dm4.Name.CheckForName) c1
         = Ok (Some (Dm4.AskName Dm4.Name.ValidateInput))
      /\ Dm4.step (mkConfig (Dm4.AskWhat Dm4.What.ValidInput) c1) SPEAK_COMPLETE
         = Dm4.arrive (Dm4.AskName Dm4.Name.ValidateInput) c1.
Proof.
  intros [lr n d t i es] value [intent ents] pre post e Hi He Hc Hpost Ht.
  simpl in Hi, He. subst intent ents.
  pose proof (scan_last_person pre post e (Dm4.mkUpdates None None None) Hc Hpost) as Hscan.
  apply eqb_differs in Ht.
  remember (pre ++ e :: post) as ents eqn:Hents. clear Hents Hc Hpost pre post.
  remember (fold_left Dm4.scan ents (Dm4.mkUpdates None None None)) as updates eqn:Hu.
  destruct updates as [un ut ud]. simpl in Hscan. subst un.
  assert (Hrec : Dm4.recogniseNlu (Some (mkNlu "CreateMeeting" (Some ents)))
                   (Dm4.mkContext lr n d t i es)
                 = Ok (Dm4.mkContext (Dm4.Nlu (mkNlu "CreateMeeting" (Some ents)))
                         (text e) (default d ud) (default t ut) "CreateMeeting"
                         (Some ents))).
  { unfold Dm4.recogniseNlu. cbn [entities topIntent default from_option id].
    rewrite <- Hu. reflexivity. }
  clear Hu.
  exists (Dm4.mkContext (Dm4.Nlu (mkNlu "CreateMeeting" (Some ents)))
            (text e) (default d ud) (default t ut) "CreateMeeting" (Some ents)).
  split; [| split; [| split]].
  - unfold Dm4.run, XState.run, Dm4.step, XState.step.
    cbn [st ctx on Dm4.dmMachine Dm4.on Dm4.onOwn Dm4.onParent Dm4.listeningNlu app
         select guard actions target yes mbind mret Res_bind Res_ret].
    rewrite Hrec. generalize (default d ud), (default t ut). intros d' t'.
    crunch. reflexivity.
  - reflexivity.
  - generalize (default d ud), (default t ut). intros d' t'.
    crunch. rewrite Ht. reflexivity.
  - generalize (default d ud), (default t ut). intros d' t'.
    crunch. rewrite Ht. explore_goal; reflexivity.
Qed.

(** ** The confirmation step and the end of a booking *)

Lemma Dm_started : Dm.started = Ok (Dm.initial, [PREPARE]).
Proof. reflexivity. Qed.

Lemma Dm4_started : Dm4.started = Ok (Dm4.initial, [PREPARE]).
Proof. reflexivity. Qed.

(** C1, as stated (a negative answer at AskConfirm clears the person, day
    and time slots), fails in the grammar machine: in the session with
    the answers "vlad", "monday", "yes" and then "no" at AskConfirm the
    machine is back at the prompt of AskName and the three slots still
    hold the values of the declined booking. *)
Lemma reject_keeps_slots :
  exists cfg out,
    Dm.run Dm.initial
           (session ["vlad"; "monday"; "yes"]
            ++ [SPEAK_COMPLETE; RECOGNISED (heard "no") None; LISTEN_COMPLETE])
    = Ok (cfg, out) /\
    st cfg = Dm.AskName Dm.Name.PromptForName /\
    Dm.nameResult (ctx cfg) = Some "Vladislav Maraev" /\
    Dm.dayResult (ctx cfg) = Some "monday" /\
    Dm.timeResult (ctx cfg) = Some "whole day" /\
    ~ (Dm.nameResult (ctx cfg) = None /\
       Dm.dayResult (ctx cfg) = None /\
       Dm.timeResult (ctx cfg) = None).
Proof.
  eexists _, _. split; [vm_compute; reflexivity|].
  repeat split; intros [H _]; discriminate H.
Qed.

(** C1, amended (grammar machine): in every child state of AskConfirm,
    LISTEN_COMPLETE with a recognised top utterance of the no phrases
    leads to the prompt of AskName, "Who are you meeting with?", and
    leaves the context, hence the three slots, as it was. The slots left
    over are not read again: from there every sequence of events visits
    the same states and sends the same commands as from the prompt of
    AskName with the three slots unset. *)
Theorem reject_restarts_at_AskName :
  forall (ch : Dm.YesNo.child) (c : Dm.DMContext) (h : Hyp) (rest : list Hyp),
    Dm.lastResult c = Some (h :: rest) ->
    isNo (utterance h) = true ->
    (Dm.step (mkConfig (Dm.AskConfirm ch) c) LISTEN_COMPLETE
     = Ok (mkConfig (Dm.AskName Dm.Name.PromptForName) c,
           [SPEAK "Who are you meeting with?"]))
    /\
    (forall evs : list Event,
        Simulation.related
          (Simulation.alike Dm.agree)
          (Dm.run (mkConfig (Dm.AskName Dm.Name.PromptForName) c) evs)
          (Dm.run (mkConfig (Dm.AskName Dm.Name.PromptForName)
                            (Dm.mkContext (Dm.lastResult c) None None None)) evs)).
Proof.
  intros ch [lr n d t] h rest HL Hn; simpl in HL; subst lr.
  split.
  - destruct ch; crunch; rewrite isNo_lower, Hn; reflexivity.
  - intros evs. apply Dm_run_alike. reflexivity.
Qed.

(** In the NLU machine the slots of the declined booking are read after
    a negative answer: CheckForName finds the old name, validation turns
    it into "Unknown", and after the next name the steps for the day and
    the time are skipped over the old values. *)
Lemma Dm4_reject_reads_old_slots :
  Dm4.run (mkConfig (Dm4.AskConfirm Dm4.Confirm.Listen)
                    (Dm4.mkContext (Dm4.Hyps (heard "yes")) "Vladislav Maraev" "monday"
                                   "whole day" "CreateMeeting" None))
          [RECOGNISED (heard "no") None; LISTEN_COMPLETE]
  = Ok (mkConfig (Dm4.AskName Dm4.Name.InvalidInput)
                 (Dm4.mkContext (Dm4.Hyps (heard "no")) "Unknown" "monday"
                                "whole day" "CreateMeeting" None),
        [SPEAK "sorry, but there does not seem to be a person with the name  Unknown in our system."])
  /\
  Dm4.run (mkConfig (Dm4.AskName Dm4.Name.InvalidInput)
                    (Dm4.mkContext (Dm4.Hyps (heard "no")) "Unknown" "monday"
                                   "whole day" "CreateMeeting" None))
          (SPEAK_COMPLETE :: turn "aya")
  = Ok (mkConfig (Dm4.AskTime Dm4.Time.ValidInput)
                 (Dm4.mkContext (Dm4.Hyps (heard "aya")) "Nayat Astaiza Soriano" "monday"
                                "whole day" "CreateMeeting" None),
        [SPEAK "Who are you meeting with?"; LISTEN;
         SPEAK "ok, you are meeting with Nayat Astaiza Soriano";
         SPEAK "ok, whole day"]).
Proof. split; vm_compute; reflexivity. Qed.

(** C2, as stated (the context is reset on entry to the state that
    completes a booking), fails in the grammar machine: after the
    session with the answers "vlad", "monday", "yes", "yes" the machine
    is in Done, and after the next click it is in Greeting, with the
    three slots and the last recognition still set. *)
Lemma Done_keeps_context :
  exists cfg out cfg' out',
    Dm.run Dm.initial (session ["vlad"; "monday"; "yes"; "yes"]) = Ok (cfg, out) /\
    st cfg = Dm.Done /\
    Dm.step cfg CLICK = Ok (cfg', out') /\
    st cfg' = Dm.Greeting /\
    ctx cfg' = Dm.mkContext (Some (heard "yes")) (Some "Vladislav Maraev")
                            (Some "monday") (Some "whole day") /\
    ctx cfg' <> Dm.initialContext.
Proof.
  eexists _, _, _, _.
  split; [vm_compute; reflexivity|].
  split; [reflexivity|].
  split; [vm_compute; reflexivity|].
  split; [reflexivity|].
  split; [reflexivity|].
  discriminate.
Qed.

(** C2, amended: in the NLU machine, in every child state of AskConfirm,
    LISTEN_COMPLETE with a recognised top utterance of the yes phrases
    leads to DoneMeeting with the context reset to its initial value
    (slots empty, [lastResult] null, intent and entities cleared), and the
    next click leads to Greeting with that context; entering Done resets
    the context in the same way. In the grammar machine the same answer
    leads to Done with the context unchanged. *)
Theorem confirmed_booking_context :
  (forall (ch : Dm4.Confirm.child) (c : Dm4.DMContext) (h : Hyp) (rest : list Hyp),
      Dm4.lastResult c = Dm4.Hyps (h :: rest) ->
      isYes (utterance h) = true ->
      Dm4.step (mkConfig (Dm4.AskConfirm ch) c) LISTEN_COMPLETE
      = Ok (mkConfig Dm4.DoneMeeting Dm4.initialContext,
            [SPEAK "Ok, your meeting has been set up! Goodbye!"]) /\
      Dm4.step (mkConfig Dm4.DoneMeeting Dm4.initialContext) CLICK
      = Ok (mkConfig Dm4.Greeting Dm4.initialContext, [SPEAK "Hi NLU!"]) /\
      Dm4.arrive Dm4.Done c
      = Ok (mkConfig Dm4.Done Dm4.initialContext,
            [SPEAK "Thank you for using Jenny's dialogue system lab! Goodbye!"]))
  /\
  (forall (ch : Dm.YesNo.child) (c : Dm.DMContext) (h : Hyp) (rest : list Hyp),
      Dm.lastResult c = Some (h :: rest) ->
      isYes (utterance h) = true ->
      Dm.step (mkConfig (Dm.AskConfirm ch) c) LISTEN_COMPLETE
      = Ok (mkConfig Dm.Done c, [SPEAK "Your appointment has been created!"])).
Proof.
  split.
  - intros ch [lr n d t i e] h rest HL Hy; simpl in HL; subst lr.
    pose proof (yes_no_disjoint _ Hy) as Hn.
    split; [| split; reflexivity].
    destruct ch; crunch; rewrite isNo_lower, ?isYes_lower, Hn, Hy; reflexivity.
  - intros ch [lr n d t] h rest HL Hy; simpl in HL; subst lr.
    pose proof (yes_no_disjoint _ Hy) as Hn.
    destruct ch; crunch; rewrite isNo_lower, ?isYes_lower, Hn, Hy; reflexivity.
Qed.

(** ** The grammar machine from end to end *)

(** C3, as stated (the last "yes" finalizes the booking and resets the
    context), fails in its last clause: the session with the answers
    "vlad", "monday", "yes", "yes" ends in Done with the slots and the
    last recognition of the booking still in the context. *)
Lemma happy_path_context_not_reset :
  exists cfg out,
    Dm.run Dm.initial (session ["vlad"; "monday"; "yes"; "yes"]) = Ok (cfg, out) /\
    st cfg = Dm.Done /\
    ctx cfg = Dm.mkContext (Some (heard "yes")) (Some "Vladislav Maraev")
                           (Some "monday") (Some "whole day") /\
    ctx cfg <> Dm.initialContext.
Proof.
  eexists _, _. split; [vm_compute; reflexivity|].
  split; [reflexivity|]. split; [reflexivity|]. discriminate.
Qed.

(** C3, amended (grammar machine, from any context [c]): "vlad"
    recognised in AskName sets the person slot to "Vladislav Maraev" and,
    once the confirmation is spoken, the machine prompts for the day;
    "xyz" in AskName leaves the slots alone, is answered by the apology
    and then by the prompt of AskName again; "monday" in AskDay sets the
    day slot and leads to the whole-day question; "yes" there sets the
    time slot to "whole day" and leads to the prompt of AskConfirm; "yes"
    in AskConfirm leads to Done, which says that the appointment has been
    created and leaves the context as it is. *)
Theorem grammar_happy_path :
  forall (c : Dm.DMContext),
    Dm.run (mkConfig (Dm.AskName Dm.Name.Listen) c)
           [RECOGNISED (heard "vlad") None; LISTEN_COMPLETE; SPEAK_COMPLETE]
    = Ok (mkConfig (Dm.AskDay Dm.Day.PromptForDay)
                   (Dm.mkContext (Some (heard "vlad")) (Some "Vladislav Maraev")
                                 (Dm.dayResult c) (Dm.timeResult c)),
          [SPEAK "ok, you are meeting with Vladislav Maraev";
           SPEAK "On which day is your meeting?"])
    /\
    Dm.run (mkConfig (Dm.AskName Dm.Name.Listen) c)
           [RECOGNISED (heard "xyz") None; LISTEN_COMPLETE; SPEAK_COMPLETE]
    = Ok (mkConfig (Dm.AskName Dm.Name.PromptForName)
                   (Dm.set_lastResult (Some (heard "xyz")) c),
          [SPEAK "sorry, but there does not seem to be a person with the name  xyz in our system.";
           SPEAK "Who are you meeting with?"])
    /\
    Dm.run (mkConfig (Dm.AskDay Dm.Day.Listen) c)
           [RECOGNISED (heard "monday") None; LISTEN_COMPLETE; SPEAK_COMPLETE]
    = Ok (mkConfig (Dm.AskFullDay Dm.YesNo.PromptForYesNo)
                   (Dm.mkContext (Some (heard "monday")) (Dm.nameResult c)
                                 (Some "monday") (Dm.timeResult c)),
          [SPEAK "ok, your meeting is on monday";
           SPEAK "Will it take the whole day?"])
    /\
    Dm.run (mkConfig (Dm.AskFullDay Dm.YesNo.Listen) c)
           [RECOGNISED (heard "yes") None; LISTEN_COMPLETE; SPEAK_COMPLETE]
    = Ok (mkConfig (Dm.AskConfirm Dm.YesNo.PromptForYesNo)
                   (Dm.mkContext (Some (heard "yes")) (Dm.nameResult c)
                                 (Dm.dayResult c) (Some "whole day")),
          [SPEAK "ok, whole day";
           SPEAK ("Do you want me to create an appointment with "
                  ++ Dm.show (Dm.nameResult c) ++ " on " ++ Dm.show (Dm.dayResult c)
                  ++ " for the whole day?")])
    /\
    Dm.run (mkConfig (Dm.AskConfirm Dm.YesNo.Listen) c)
           [RECOGNISED (heard "yes") None; LISTEN_COMPLETE]
    = Ok (mkConfig Dm.Done (Dm.set_lastResult (Some (heard "yes")) c),
          [SPEAK "Your appointment has been created!"])
    /\
    Dm.run Dm.initial (session ["vlad"; "monday"; "yes"; "yes"])
    = Ok (mkConfig Dm.Done
                   (Dm.mkContext (Some (heard "yes")) (Some "Vladislav Maraev")
                                 (Some "monday") (Some "whole day")),
          [SPEAK "Hi! Let's create an appointment.";
           SPEAK "Who are you meeting with?"; LISTEN;
           SPEAK "ok, you are meeting with Vladislav Maraev";
           SPEAK "On which day is your meeting?"; LISTEN;
           SPEAK "ok, your meeting is on monday";
           SPEAK "Will it take the whole day?"; LISTEN;
           SPEAK "ok, whole day";
           SPEAK "Do you want me to create an appointment with Vladislav Maraev on monday for the whole day?";
           LISTEN;
           SPEAK "Your appointment has been created!"]).
Proof.
  intros [lr n d t]. repeat split; vm_compute; reflexivity.
Qed.

(** ** The theorems at concrete inputs *)

(** C4 at "wednesday", a weekday that the grammar does not list. *)
Lemma AskDay_validation_three_way_witness :
  Dm.lastResult (Dm.mkContext (Some (heard "wednesday")) None None None)
  = Some (mkHyp "wednesday" (QArith_base.Qmake 9 10) :: []) /\
  Dm.arrive (Dm.AskDay Dm.Day.ValidateInput)
            (Dm.mkContext (Some (heard "wednesday")) None None None)
  = Ok (mkConfig (Dm.AskDay Dm.Day.InvalidInput)
                 (Dm.mkContext (Some (heard "wednesday")) None None None),
        [SPEAK "sorry, but wednesday does not seem to be a bookable day in our system."]).
Proof.
  split; [reflexivity|].
  destruct (proj1 AskDay_validation_three_way
              (Dm.mkContext (Some (heard "wednesday")) None None None)
              (mkHyp "wednesday" (QArith_base.Qmake 9 10)) [] eq_refl)
    as (cfg & out & Hrun & [H | [H | H]]).
  - destruct H as [H _]. vm_compute in H. discriminate H.
  - destruct H as (_ & _ & -> & ->). exact Hrun.
  - destruct H as (_ & H & _). vm_compute in H. discriminate H.
Defined.

(** C5 at "nope" in the grammar machine. *)
Lemma yes_no_validation_witness :
  Dm.lastResult (Dm.mkContext (Some (heard "nope")) None None None)
  = Some (mkHyp "nope" (QArith_base.Qmake 9 10) :: []) /\
  isNo "nope" = true /\
  Dm.arrive (Dm.AskConfirm Dm.YesNo.ValidateInput)
            (Dm.mkContext (Some (heard "nope")) None None None)
  = Ok (mkConfig (Dm.AskName Dm.Name.PromptForName)
                 (Dm.mkContext (Some (heard "nope")) None None None),
        [SPEAK "Who are you meeting with?"]).
Proof.
  split; [reflexivity|]. split; [vm_compute; reflexivity|].
  destruct (proj1 yes_no_validation
              (Dm.mkContext (Some (heard "nope")) None None None)
              (mkHyp "nope" (QArith_base.Qmake 9 10)) [] eq_refl)
    as (_ & Hno & _).
  destruct Hno as [_ H]; [vm_compute; reflexivity|]. exact H.
Defined.

(** C9 in AskDay. *)
Lemma no_input_returns_to_same_prompt_witness :
  Dm.within Dm.Weekday (Dm.AskDay Dm.Day.Listen) = true /\
  Dm.lastResult (Dm.mkContext None (Some "Vladislav Maraev") None None) = None /\
  Dm.step (mkConfig (Dm.AskDay Dm.Day.Listen)
                    (Dm.mkContext None (Some "Vladislav Maraev") None None))
          LISTEN_COMPLETE
  = Ok (mkConfig (Dm.AskDay Dm.Day.NoInput)
                 (Dm.mkContext None (Some "Vladislav Maraev") None None),
        [SPEAK "Sorry, I didn't hear anything!"]).
Proof.
  split; [reflexivity|]. split; [reflexivity|].
  exact (proj1 (no_input_returns_to_same_prompt
                  Dm.Weekday (Dm.AskDay Dm.Day.Listen)
                  (Dm.mkContext None (Some "Vladislav Maraev") None None)
                  eq_refl eq_refl)).
Defined.

(** C10 in AskName, with the initial context. *)
Lemma listen_complete_guard_dereferences_null_witness :
  Dm4.within Dm4.Person (Dm4.AskName Dm4.Name.Listen) = true /\
  Dm4.lastResult Dm4.initialContext = Dm4.Null /\
  Dm4.slotValue Dm4.Person Dm4.initialContext = "" /\
  Dm4.step (mkConfig (Dm4.AskName Dm4.Name.Listen) Dm4.initialContext) LISTEN_COMPLETE
  = Throw TypeError.
Proof.
  split; [reflexivity|]. split; [reflexivity|]. split; [reflexivity|].
  exact (proj2 (proj1 (listen_complete_guard_dereferences_null
                         Dm4.Person (Dm4.AskName Dm4.Name.Listen) Dm4.initialContext
                         eq_refl eq_refl)
                      eq_refl)).
Defined.

(** C8 at "a meeting with Vlad". *)
Lemma CreateMeeting_person_entity_skips_prompt_witness :
  exists c1,
    Dm4.run (mkConfig (Dm4.AskWhat Dm4.What.Listen) Dm4.initialContext)
            [RECOGNISED (heard "a meeting with Vlad")
                        (Some (mkNlu "CreateMeeting" (Some [mkEntity "personName" "Vlad"])));
             LISTEN_COMPLETE]
    = Ok (mkConfig (Dm4.AskWhat Dm4.What.ValidInput) c1, [SPEAK "All right, let's go!"])
    /\ Dm4.nameResult c1 = "Vlad"
    /\ Dm4.eventless (Dm4.AskName Dm4.Name.CheckForName) c1
       = Ok (Some (Dm4.AskName Dm4.Name.ValidateInput))
    /\ Dm4.step (mkConfig (Dm4.AskWhat Dm4.What.ValidInput) c1) SPEAK_COMPLETE
       = Dm4.arrive (Dm4.AskName Dm4.Name.ValidateInput) c1.
Proof.
  apply (CreateMeeting_person_entity_skips_prompt
           Dm4.initialContext (heard "a meeting with Vlad")
           (mkNlu "CreateMeeting" (Some [mkEntity "personName" "Vlad"]))
           [] [] (mkEntity "personName" "Vlad")).
  - reflexivity.
  - reflexivity.
  - reflexivity.
  - apply Forall_nil_2.
  - discriminate.
Defined.

(** C1, amended, at "no" after a filled booking. *)
Lemma reject_restarts_at_AskName_witness :
  Dm.lastResult (Dm.mkContext (Some (heard "no")) (Some "Vladislav Maraev")
                              (Some "monday") (Some "whole day"))
  = Some (mkHyp "no" (QArith_base.Qmake 9 10) :: []) /\
  isNo "no" = true /\
  Dm.step (mkConfig (Dm.AskConfirm Dm.YesNo.Listen)
                    (Dm.mkContext (Some (heard "no")) (Some "Vladislav Maraev")
                                  (Some "monday") (Some "whole day")))
          LISTEN_COMPLETE
  = Ok (mkConfig (Dm.AskName Dm.Name.PromptForName)
                 (Dm.mkContext (Some (heard "no")) (Some "Vladislav Maraev")
                               (Some "monday") (Some "whole day")),
        [SPEAK "Who are you meeting with?"]).
Proof.
  split; [reflexivity|]. split; [vm_compute; reflexivity|].
  assert (Hn : isNo "no" = true) by (vm_compute; reflexivity).
  exact (proj1 (reject_restarts_at_AskName Dm.YesNo.Listen
                  (Dm.mkContext (Some (heard "no")) (Some "Vladislav Maraev")
                                (Some "monday") (Some "whole day"))
                  (mkHyp "no" (QArith_base.Qmake 9 10)) [] eq_refl Hn)).
Defined.

(** C2, amended, at "sure" in the NLU machine. *)
Lemma confirmed_booking_context_witness :
  Dm4.lastResult (Dm4.mkContext (Dm4.Hyps (heard "sure")) "Vladislav Maraev" "monday"
                                "whole day" "CreateMeeting" None)
  = Dm4.Hyps (mkHyp "sure" (QArith_base.Qmake 9 10) :: []) /\
  isYes "sure" = true /\
  Dm4.step (mkConfig (Dm4.AskConfirm Dm4.Confirm.Listen)
                     (Dm4.mkContext (Dm4.Hyps (heard "sure")) "Vladislav Maraev" "monday"
                                    "whole day" "CreateMeeting" None))
           LISTEN_COMPLETE
  = Ok (mkConfig Dm4.DoneMeeting Dm4.initialContext,
        [SPEAK "Ok, your meeting has been set up! Goodbye!"]).
Proof.
  split; [reflexivity|]. split; [vm_compute; reflexivity|].
  assert (Hy : isYes "sure" = true) by (vm_compute; reflexivity).
  exact (proj1 (proj1 confirmed_booking_context Dm4.Confirm.Listen
                  (Dm4.mkContext (Dm4.Hyps (heard "sure")) "Vladislav Maraev" "monday"
                                 "whole day" "CreateMeeting" None)
                  (mkHyp "sure" (QArith_base.Qmake 9 10)) [] eq_refl Hy)).
Defined.

(** * Further properties of the two machines *)

(** ** Invariants of a machine *)
Section Invariants.

Context {State Ctx Event Command : Type}.
Variable M : Machine State Ctx Event Command.

(** The candidate selected has a guard that holds. *)
Lemma select_holds {T} (guardOf : T -> Guard Ctx) (ts : list T) (c : Ctx) (t : T) :
  select guardOf ts c = Ok (Some t) -> guardOf t c = Ok true.
Proof.
  induction ts as [|t' ts IH]; simpl; [discriminate|].
  destruct (guardOf t' c) as [[|]| |] eqn:Hg; simpl; try discriminate.
  - intros [= ->]. exact Hg.
  - exact IH.
Qed.

(** [J s c]: what is known of the context when the machine is in [s];
    [allowed ev]: the events the machine is assumed to receive. *)
Variable J : State -> Ctx -> Prop.
Variable allowed : Event -> Prop.

Hypothesis on_keeps : forall s ev c tr c1,
    allowed ev ->
    J s c -> tr ∈ on M s ev -> guard tr c = Ok true -> actions tr c = Ok c1 ->
    match target tr with
    | Some s' => forall c2 out, entry M s' c1 = Ok (c2, out) -> J s' c2
    | None => J s c1
    end.
Hypothesis always_keeps : forall s c g s' c2 out,
    J s c -> (g, s') ∈ always M s -> g c = Ok true ->
    entry M s' c = Ok (c2, out) -> J s' c2.

Lemma settle_keeps (fuel : nat) :
  forall s c out0 cfg out,
    J s c -> settle M fuel s c out0 = Ok (cfg, out) -> J (st cfg) (ctx cfg).
Proof.
  induction fuel as [|fuel IH]; intros s c out0 cfg out HJ H; [discriminate H|].
  cbn [settle] in H.
  destruct (select fst (always M s) c) as [[[g s']|]| |] eqn:Hsel;
    cbn [mbind Res_bind mret Res_ret] in H; try discriminate H.
  - pose proof (select_elem _ _ _ _ Hsel) as Hin.
    pose proof (select_holds _ _ _ _ Hsel) as Hg. cbn [fst] in Hg.
    destruct (entry M s' c) as [[c2 out2]| |] eqn:He;
      cbn [mbind Res_bind mret Res_ret] in H; try discriminate H.
    eapply IH; [| exact H]. eapply always_keeps; eauto.
  - injection H as <- _. exact HJ.
Qed.

(** Every step on an allowed event keeps the invariant. *)
Lemma step_keeps (s : State) (c : Ctx) (ev : Event)
      (cfg : Config State Ctx) (out : list Command) :
  allowed ev ->
  J s c -> step M (mkConfig s c) ev = Ok (cfg, out) -> J (st cfg) (ctx cfg).
Proof.
  intros Hev HJ H. unfold step in H. cbn [st ctx] in H.
  destruct (select guard (on M s ev) c) as [[tr|]| |] eqn:Hsel;
    cbn [mbind Res_bind mret Res_ret] in H; try discriminate H.
  - pose proof (select_elem _ _ _ _ Hsel) as Hin.
    pose proof (select_holds _ _ _ _ Hsel) as Hg.
    destruct (actions tr c) as [c1| |] eqn:Ha;
      cbn [mbind Res_bind mret Res_ret] in H; try discriminate H.
    pose proof (on_keeps s ev c tr c1 Hev HJ Hin Hg Ha) as Hk.
    destruct (target tr) as [s'|].
    + unfold arrive in H.
      destruct (entry M s' c1) as [[c2 out2]| |] eqn:He;
        cbn [mbind Res_bind mret Res_ret] in H; try discriminate H.
      eapply settle_keeps; [| exact H]. eapply Hk. reflexivity.
    + eapply settle_keeps; [| exact H]. exact Hk.
  - injection H as <- _. exact HJ.
Qed.

(** So does every sequence of allowed events. *)
Lemma run_keeps (evs : list Event) :
  forall s c cfg out,
    Forall allowed evs ->
    J s c -> run M (mkConfig s c) evs = Ok (cfg, out) -> J (st cfg) (ctx cfg).
Proof.
  induction evs as [|ev evs IH]; intros s c cfg out Hall HJ H; cbn [run] in H.
  - injection H as <- _. exact HJ.
  - apply Forall_cons in Hall as [Hev Hall].
    destruct (step M (mkConfig s c) ev) as [[[s1 c1] o1]| |] eqn:Hs;
      cbn [mbind Res_bind mret Res_ret] in H; try discriminate H.
    pose proof (step_keeps s c ev _ _ Hev HJ Hs) as HJ1. cbn [st ctx] in HJ1.
    destruct (run M (mkConfig s1 c1) evs) as [[cfg2 o2]| |] eqn:Hr;
      cbn [mbind Res_bind mret Res_ret] in H; try discriminate H.
    injection H as <- _. eapply IH; eauto.
Qed.

End Invariants.

(** ** Sequences of events *)
Section Runs.

Context {State Ctx Event Command : Type}.
Variable M : Machine State Ctx Event Command.

(** Running two sequences one after the other. *)
Lemma run_app (evs1 evs2 : list Event) :
  forall cfg,
    run M cfg (evs1 ++ evs2)
    = ('(cfg1, out1) ← run M cfg evs1;
       '(cfg2, out2) ← run M cfg1 evs2;
       mret (cfg2, out1 ++ out2)).
Proof.
  induction evs1 as [|ev evs1 IH]; intros cfg; cbn [run app mbind Res_bind mret Res_ret].
  - destruct (run M cfg evs2) as [[cfg2 out2]| |]; reflexivity.
  - destruct (step M cfg ev) as [[cfg' out]| |]; cbn [mbind Res_bind mret Res_ret];
      try reflexivity.
    rewrite IH.
    destruct (run M cfg' evs1) as [[cfg1 out1]| |]; cbn [mbind Res_bind mret Res_ret];
      try reflexivity.
    destruct (run M cfg1 evs2) as [[cfg2 out2]| |]; cbn [mbind Res_bind mret Res_ret];
      try reflexivity.
    by rewrite app_assoc.
Qed.

End Runs.

(** ** The commands of one step *)
Section Quiet.

Context {State Ctx Event Command : Type}.
Variable M : Machine State Ctx Event Command.

(** A state sends at most one command on entry, and none when it has
    eventless transitions. *)
Hypothesis entry_quiet : forall s c c' out,
    entry M s c = Ok (c', out) ->
    length out <= 1 /\ (always M s <> [] -> out = []).

Lemma settle_quiet (fuel : nat) :
  forall s c out0 cfg out,
    length out0 <= 1 -> (always M s <> [] -> out0 = []) ->
    settle M fuel s c out0 = Ok (cfg, out) -> length out <= 1.
Proof.
  induction fuel as [|fuel IH]; intros s c out0 cfg out Hlen Hq H; [discriminate H|].
  cbn [settle] in H.
  destruct (select fst (always M s) c) as [[[g s']|]| |] eqn:Hsel;
    cbn [mbind Res_bind mret Res_ret] in H; try discriminate H.
  - assert (Hne : always M s <> []).
    { intros E. rewrite E in Hsel. discriminate Hsel. }
    rewrite (Hq Hne) in H. cbn [app] in H.
    destruct (entry M s' c) as [[c2 out2]| |] eqn:He;
      cbn [mbind Res_bind mret Res_ret] in H; try discriminate H.
    destruct (entry_quiet _ _ _ _ He) as [Hl2 Hq2].
    eapply IH; [exact Hl2 | exact Hq2 | exact H].
  - injection H as _ <-. exact Hlen.
Qed.

(** A step sends at most one command. *)
Lemma step_quiet (cfg cfg' : Config State Ctx) (ev : Event) (out : list Command) :
  step M cfg ev = Ok (cfg', out) -> length out <= 1.
Proof.
  intros H. unfold step in H.
  destruct (select guard (on M (st cfg) ev) (ctx cfg)) as [[tr|]| |];
    cbn [mbind Res_bind mret Res_ret] in H; try discriminate H.
  - destruct (actions tr (ctx cfg)) as [c1| |];
      cbn [mbind Res_bind mret Res_ret] in H; try discriminate H.
    destruct (target tr) as [s'|].
    + unfold arrive in H.
      destruct (entry M s' c1) as [[c2 out2]| |] eqn:He;
        cbn [mbind Res_bind mret Res_ret] in H; try discriminate H.
      destruct (entry_quiet _ _ _ _ He) as [Hl2 Hq2].
      eapply settle_quiet; [exact Hl2 | exact Hq2 | exact H].
    + eapply settle_quiet; [| | exact H]; [simpl; lia | reflexivity].
  - injection H as _ <-. simpl. lia.
Qed.

End Quiet.

(** ** More on the lexicon *)

Lemma grammar_lookup (k : string) (e : GrammarEntry) :
  grammar !! k = Some e -> (k, e) ∈ grammarEntries.
Proof. unfold grammar. apply elem_of_list_to_map_2. Qed.

(** The person lookup answers with a person of the grammar only. *)
Lemma getPerson_known (u p : string) :
  getPerson u = Some p -> p ∈ Booking.persons.
Proof.
  unfold getPerson, Js.get. destruct (grammar !! toLowerCase u) as [e|] eqn:E.
  - apply grammar_lookup in E. unfold grammarEntries in E.
    repeat (apply elem_of_cons in E as [E | E];
            [injection E as _ ->; cbn; intros [= <-]; unfold Booking.persons;
             repeat first [apply list_elem_of_here | apply list_elem_of_further] |]);
      try discriminate.
    by apply elem_of_nil in E.
  - by destruct (includes objectPrototype (toLowerCase u)).
Qed.

Lemma person_truthy (p : string) :
  p ∈ Booking.persons -> truthy p = true /\ String.eqb p "Unknown" = false.
Proof.
  unfold Booking.persons. intros H.
  repeat (apply elem_of_cons in H as [-> | H]; [split; reflexivity |]).
  by apply elem_of_nil in H.
Qed.

Lemma weekday_bookable (u : string) :
  validateDay u = true -> isInGrammar u = true ->
  toLowerCase u = "monday" \/ toLowerCase u = "tuesday".
Proof.
  unfold validateDay, isInGrammar.
  generalize (toLowerCase u) as k. intros k Hk Hg.
  apply includes_true in Hk. unfold validDay in Hk.
  repeat (apply elem_of_cons in Hk as [-> | Hk];
          [first [by left | by right | by vm_compute in Hg] |]).
  by apply elem_of_nil in Hk.
Qed.

Lemma validateDay_truthy (u : string) : validateDay u = true -> truthy u = true.
Proof. destruct u; [vm_compute; discriminate | reflexivity]. Qed.

Lemma isInGrammar_truthy (u : string) : isInGrammar u = true -> truthy u = true.
Proof. destruct u; [vm_compute; discriminate | reflexivity]. Qed.

Lemma orElse_truthy (u d : string) : truthy u = true -> orElse (Some u) d = u.
Proof. unfold orElse. by intros ->. Qed.

(** ** The lexicon, exactly *)

(** X1: the two helpers of the lexicon are decided by the case
    folding of the utterance alone. The grammar test accepts exactly
    eleven case-folded utterances: the nine keys of the table and the two
    names, "constructor" and "__proto__", that the table inherits. The
    person lookup answers for exactly the three keys "vlad", "aya" and
    "victoria", with the full name of the table. *)
Theorem lexicon_exact :
  forall u : string,
    (isInGrammar u = true <->
     toLowerCase u ∈ ["vlad"; "aya"; "victoria"; "monday"; "tuesday"; "yes"; "no";
                      "10"; "11"; "constructor"; "__proto__"])
    /\
    (forall p : string,
        getPerson u = Some p <->
        (toLowerCase u, p) ∈ [("vlad", "Vladislav Maraev");
                              ("aya", "Nayat Astaiza Soriano");
                              ("victoria", "Victoria Daniilidou")]).
Proof.
  intros u. split; [split |intros p; split].
  - unfold isInGrammar. rewrite has_spec. intros H.
    apply orb_true_iff in H as [H | H].
    + unfold Js.hasOwn in H. apply bool_decide_eq_true in H as [e He].
      apply grammar_lookup in He. unfold grammarEntries in He.
      repeat (apply elem_of_cons in He as [He | He];
              [injection He as -> _;
               repeat first [apply list_elem_of_here | apply list_elem_of_further] |]).
      by apply elem_of_nil in He.
    + apply lowered_inherited in H as [-> | ->];
        repeat first [apply list_elem_of_here | apply list_elem_of_further].
  - unfold isInGrammar. intros H.
    repeat (apply elem_of_cons in H as [-> | H]; [vm_compute; reflexivity |]).
    by apply elem_of_nil in H.
  - unfold getPerson, Js.get. destruct (grammar !! toLowerCase u) as [e|] eqn:E.
    + apply grammar_lookup in E. unfold grammarEntries in E.
      repeat (apply elem_of_cons in E as [E | E];
              [injection E as -> ->; cbn; intros [= <-];
               repeat first [apply list_elem_of_here | apply list_elem_of_further] |]);
        try discriminate.
      by apply elem_of_nil in E.
    + by destruct (includes objectPrototype (toLowerCase u)).
  - unfold getPerson. intros H.
    repeat (apply elem_of_cons in H as [[= -> ->] | H]; [vm_compute; reflexivity |]).
    by apply elem_of_nil in H.
Qed.

(** ** Validation of the name and of the time (grammar machine) *)

(** X2: with a recognised top utterance [u], entering
    AskName.ValidateInput of the grammar machine has one of three
    outcomes. If [u] fails the grammar test, the apology that quotes [u]
    is spoken and the name is asked again, the slots untouched. If [u]
    passes it and is the key of a person, that person becomes the name
    slot and the machine goes on to ask for the day. If [u] passes it
    without being the key of a person (a day, a time, yes or no), the
    name slot becomes "Unknown", the machine says that it did not
    recognise the name and asks for it again. *)
Theorem AskName_validation_outcomes :
  forall (c : Dm.DMContext) (h : Hyp) (rest : list Hyp),
    Dm.lastResult c = Some (h :: rest) ->
    (isInGrammar (utterance h) = false ->
     Dm.run (mkConfig (Dm.AskName Dm.Name.Listen) c) [LISTEN_COMPLETE; SPEAK_COMPLETE]
     = Ok (mkConfig (Dm.AskName Dm.Name.PromptForName) c,
           [SPEAK ("sorry, but there does not seem to be a person with the name  "
                   ++ utterance h ++ " in our system.");
            SPEAK "Who are you meeting with?"]))
    /\
    (forall p : string,
        isInGrammar (utterance h) = true -> getPerson (utterance h) = Some p ->
        Dm.run (mkConfig (Dm.AskName Dm.Name.Listen) c) [LISTEN_COMPLETE; SPEAK_COMPLETE]
        = Ok (mkConfig (Dm.AskDay Dm.Day.PromptForDay) (Dm.set_nameResult (Some p) c),
              [SPEAK ("ok, you are meeting with " ++ p);
               SPEAK "On which day is your meeting?"]))
    /\
    (isInGrammar (utterance h) = true -> getPerson (utterance h) = None ->
     Dm.run (mkConfig (Dm.AskName Dm.Name.Listen) c) [LISTEN_COMPLETE; SPEAK_COMPLETE]
     = Ok (mkConfig (Dm.AskName Dm.Name.PromptForName)
                    (Dm.set_nameResult (Some "Unknown") c),
           [SPEAK "Sorry, I did not recognise that name.";
            SPEAK "Who are you meeting with?"])).
Proof.
  intros [lr n d t] h rest HL; simpl in HL; subst lr.
  split; [| split].
  - intros Hg. crunch. rewrite Hg. crunch. reflexivity.
  - intros p Hg Hp.
    destruct (person_truthy p (getPerson_known _ _ Hp)) as [Ht Hu].
    crunch. rewrite Hg. crunch. rewrite Hp, (orElse_truthy _ _ Ht). crunch.
    rewrite Hu. crunch. reflexivity.
  - intros Hg Hp. crunch. rewrite Hg. crunch. rewrite Hp. crunch. reflexivity.
Qed.

Lemma AskName_validation_outcomes_witness :
  Dm.lastResult (Dm.mkContext (Some (heard "Monday")) None None None)
  = Some (mkHyp "Monday" (QArith_base.Qmake 9 10) :: []) /\
  isInGrammar "Monday" = true /\ getPerson "Monday" = None /\
  Dm.run (mkConfig (Dm.AskName Dm.Name.Listen)
                   (Dm.mkContext (Some (heard "Monday")) None None None))
         [LISTEN_COMPLETE; SPEAK_COMPLETE]
  = Ok (mkConfig (Dm.AskName Dm.Name.PromptForName)
                 (Dm.mkContext (Some (heard "Monday")) (Some "Unknown") None None),
        [SPEAK "Sorry, I did not recognise that name.";
         SPEAK "Who are you meeting with?"]).
Proof.
  assert (Hg : isInGrammar "Monday" = true) by (vm_compute; reflexivity).
  assert (Hp : getPerson "Monday" = None) by (vm_compute; reflexivity).
  split; [reflexivity|]. split; [exact Hg|]. split; [exact Hp|].
  exact (proj2 (proj2 (AskName_validation_outcomes
                         (Dm.mkContext (Some (heard "Monday")) None None None)
                         (mkHyp "Monday" (QArith_base.Qmake 9 10)) [] eq_refl)) Hg Hp).
Defined.

(** X3: the time of the meeting is validated by the grammar test
    alone. With a recognised top utterance [u], AskTime.ValidateInput of
    the grammar machine stores [u] itself, as it was heard, in the time
    slot whenever [u] passes the test, whatever kind of entry [u] is the
    key of, confirms it and goes on to AskConfirm; otherwise it apologises
    and asks for the time again, the slots untouched. *)
Theorem AskTime_accepts_any_grammar_key :
  forall (c : Dm.DMContext) (h : Hyp) (rest : list Hyp),
    Dm.lastResult c = Some (h :: rest) ->
    (isInGrammar (utterance h) = true ->
     Dm.run (mkConfig (Dm.AskTime Dm.Time.Listen) c) [LISTEN_COMPLETE; SPEAK_COMPLETE]
     = Ok (mkConfig (Dm.AskConfirm Dm.YesNo.PromptForYesNo)
                    (Dm.set_timeResult (Some (utterance h)) c),
           [SPEAK ("ok, " ++ utterance h);
            SPEAK ("Do you want me to create an appointment with "
                   ++ Dm.show (Dm.nameResult c) ++ " on " ++ Dm.show (Dm.dayResult c)
                   ++ " at " ++ utterance h ++ "?")]))
    /\
    (isInGrammar (utterance h) = false ->
     Dm.run (mkConfig (Dm.AskTime Dm.Time.Listen) c) [LISTEN_COMPLETE; SPEAK_COMPLETE]
     = Ok (mkConfig (Dm.AskTime Dm.Time.PromptForTime) c,
           [SPEAK ("sorry, but " ++ utterance h
                   ++ " does not seem to be a bookable time in our system.");
            SPEAK "What time is your meeting?"])).
Proof.
  intros [lr n d t] h rest HL; simpl in HL; subst lr.
  split.
  - intros Hg. pose proof (isInGrammar_truthy _ Hg) as Ht.
    assert (Hw : String.eqb (utterance h) "whole day" = false).
    { destruct (String.eqb (utterance h) "whole day") eqn:E; [| reflexivity].
      apply String.eqb_eq in E. rewrite E in Hg. vm_compute in Hg. discriminate Hg. }
    crunch. rewrite Hg. crunch. rewrite (orElse_truthy _ _ Ht). crunch.
    rewrite Hw. crunch. reflexivity.
  - intros Hg. crunch. rewrite Hg. crunch. reflexivity.
Qed.

Lemma AskTime_accepts_any_grammar_key_witness :
  Dm.lastResult (Dm.mkContext (Some (heard "Vlad")) (Some "Victoria Daniilidou")
                              (Some "tuesday") None)
  = Some (mkHyp "Vlad" (QArith_base.Qmake 9 10) :: []) /\
  isInGrammar "Vlad" = true /\
  Dm.run (mkConfig (Dm.AskTime Dm.Time.Listen)
                   (Dm.mkContext (Some (heard "Vlad")) (Some "Victoria Daniilidou")
                                 (Some "tuesday") None))
         [LISTEN_COMPLETE; SPEAK_COMPLETE]
  = Ok (mkConfig (Dm.AskConfirm Dm.YesNo.PromptForYesNo)
                 (Dm.mkContext (Some (heard "Vlad")) (Some "Victoria Daniilidou")
                               (Some "tuesday") (Some "Vlad")),
        [SPEAK "ok, Vlad";
         SPEAK "Do you want me to create an appointment with Victoria Daniilidou on tuesday at Vlad?"]).
Proof.
  assert (Hg : isInGrammar "Vlad" = true) by (vm_compute; reflexivity).
  split; [reflexivity|]. split; [exact Hg|].
  exact (proj1 (AskTime_accepts_any_grammar_key
                  (Dm.mkContext (Some (heard "Vlad")) (Some "Victoria Daniilidou")
                                (Some "tuesday") None)
                  (mkHyp "Vlad" (QArith_base.Qmake 9 10)) [] eq_refl) Hg).
Defined.

(** ** Turns without input, any number of them *)

(** X4: the grammar machine sets no limit to the turns without
    input. From the prompt of any of its five steps, [n] turns in which
    nothing is heard lead back to that prompt, each turn answered by the
    same three commands (listen, the apology, the prompt again); the
    slots are as they were, and [lastResult] is null from the first such
    turn on. *)
Theorem silent_turns_repeat_without_limit :
  forall (sl : Dm.Slot) (c : Dm.DMContext),
  exists prompt : string,
  forall n : nat,
    Dm.run (mkConfig (Dm.promptOf sl) c) (concat (replicate n Booking.silentTurn))
    = Ok (mkConfig (Dm.promptOf sl) (Nat.iter n (Dm.set_lastResult None) c),
          concat (replicate n [LISTEN; SPEAK "Sorry, I didn't hear anything!";
                               SPEAK prompt])).
Proof.
  intros sl c.
  assert (Hone : exists prompt, forall l,
               Dm.run (mkConfig (Dm.promptOf sl) (Dm.set_lastResult l c)) Booking.silentTurn
               = Ok (mkConfig (Dm.promptOf sl) (Dm.set_lastResult None c),
                     [LISTEN; SPEAK "Sorry, I didn't hear anything!"; SPEAK prompt])).
  { destruct c as [l0 n0 d0 t0].
    destruct sl;
      [exists "Who are you meeting with?" | exists "On which day is your meeting?"
      | exists "Will it take the whole day?" | exists "What time is your meeting?"
      | exists ("Do you want me to create an appointment with " ++ Dm.show n0
                ++ " on " ++ Dm.show d0 ++ " "
                ++ (if Dm.same t0 "whole day" then "for the whole day"
                    else "at " ++ Dm.show t0)
                ++ "?")%string];
      intros l; reflexivity. }
  destruct Hone as [prompt Hone]. exists prompt.
  assert (Hall : forall n l,
               Dm.run (mkConfig (Dm.promptOf sl) (Dm.set_lastResult l c))
                      (concat (replicate n Booking.silentTurn))
               = Ok (mkConfig (Dm.promptOf sl)
                              (Nat.iter n (Dm.set_lastResult None) (Dm.set_lastResult l c)),
                     concat (replicate n [LISTEN; SPEAK "Sorry, I didn't hear anything!";
                                          SPEAK prompt]))).
  { induction n as [|n IH]; intros l; [reflexivity|].
    cbn [replicate concat]. unfold Dm.run in *. rewrite run_app, Hone.
    cbn [mbind Res_bind mret Res_ret]. rewrite IH.
    cbn [mbind Res_bind mret Res_ret]. by rewrite Nat.iter_succ_r. }
  intros n. specialize (Hall n (Dm.lastResult c)).
  destruct c as [l0 n0 d0 t0]. exact Hall.
Qed.

(** ** After a booking *)

(** X5: the grammar machine does not clear the slots when a booking
    is made, and does not read them afterwards: from Done, and from the
    Greeting that follows the next click, every sequence of events visits
    the same states and sends the same commands as it does with the
    three slots unset. *)
Theorem next_booking_ignores_filled_slots :
  forall (c : Dm.DMContext) (evs : list Event),
    Simulation.related
      (Simulation.alike Dm.agree)
      (Dm.run (mkConfig Dm.Done c) evs)
      (Dm.run (mkConfig Dm.Done (Dm.mkContext (Dm.lastResult c) None None None)) evs)
    /\
    Simulation.related
      (Simulation.alike Dm.agree)
      (Dm.run (mkConfig Dm.Greeting c) evs)
      (Dm.run (mkConfig Dm.Greeting (Dm.mkContext (Dm.lastResult c) None None None)) evs).
Proof.
  intros c evs. split; apply Dm_run_alike; reflexivity.
Qed.

(** ** Eventless transitions come to rest *)

(** X6: in neither machine do the eventless transitions form a
    loop: whatever the state, the context and the event, a step comes to
    rest in a state (or throws) after fewer eventless transitions than
    the bound of the interpreter. *)
Theorem eventless_transitions_come_to_rest :
  (forall (cfg : Config Dm.State Dm.DMContext) (ev : Event),
      Dm.step cfg ev <> Unsettled)
  /\
  (forall (cfg : Config Dm4.State Dm4.DMContext) (ev : Event),
      Dm4.step cfg ev <> Unsettled)
  /\
  (forall s : Dm.State, Dm.rank s < bound)
  /\
  (forall s : Dm4.State, Dm4.rank s < bound).
Proof.
  split; [exact Dm_step_returns|]. split; [exact Dm4_step_returns|].
  split; intros s.
  - destruct s as [| | |ch|ch|ch|ch|ch|]; try destruct ch; vm_compute; lia.
  - destruct s as [| | |ch| |ch|ch|ch|ch|ch| |]; try destruct ch; vm_compute; lia.
Qed.

(** ** Events out of turn *)



(** ** The entities of a request (NLU machine) *)

Lemma lastOf_cons (cat : string) (e : Entity) (ents : list Entity) :
  Routing.lastOf cat (e :: ents)
  = match Routing.lastOf cat ents with
    | Some x => Some x
    | None => if String.eqb (category e) cat then Some (text e) else None
    end.
Proof.
  unfold Routing.lastOf. cbn [List.filter].
  destruct (String.eqb (category e) cat); [| by destruct (last _)].
  cbn [map]. rewrite last_cons. reflexivity.
Qed.

(** The loop over the entities, from any [updates]. *)
Lemma fold_scan (ents : list Entity) :
  forall u : Dm4.Updates,
    fold_left Dm4.scan ents u
    = Dm4.mkUpdates
        (match Routing.lastOf "personName" ents with
         | Some x => Some x | None => Dm4.upd_nameResult u end)
        (match Routing.lastOf "apptTime" ents with
         | Some x => Some x | None => Dm4.upd_timeResult u end)
        (match Routing.lastOf "apptDay" ents with
         | Some x => Some x | None => Dm4.upd_dayResult u end).
Proof.
  induction ents as [|e ents IH]; intros [n t d]; [reflexivity|].
  cbn [fold_left]. rewrite IH, !lastOf_cons. unfold Dm4.scan.
  destruct (Routing.lastOf "personName" ents), (Routing.lastOf "apptTime" ents),
    (Routing.lastOf "apptDay" ents);
    destruct (String.eqb (category e) "personName") eqn:E1;
    try (apply String.eqb_eq in E1; rewrite E1);
    try reflexivity;
    destruct (String.eqb (category e) "apptTime") eqn:E2;
    try (apply String.eqb_eq in E2; rewrite E2);
    try reflexivity;
    destruct (String.eqb (category e) "apptDay") eqn:E3; reflexivity.
Qed.

(** X8: what AskWhat.Listen makes of a recognition result. Each
    of the three slots takes the text of the last entity of its category
    (personName, apptDay, apptTime) and keeps its old value when the
    result has no entity of that category, or no entities at all; the
    result itself, its top intent and its entities are stored, no command
    is sent and the machine goes on listening. A recognition event
    without a language-understanding result makes the step throw. *)
Theorem entities_fill_the_slots :
  forall (c : Dm4.DMContext) (value : list Hyp),
    (forall v : NluValue,
        Dm4.step (mkConfig (Dm4.AskWhat Dm4.What.Listen) c) (RECOGNISED value (Some v))
        = Ok (mkConfig (Dm4.AskWhat Dm4.What.Listen)
                (Dm4.mkContext
                   (Dm4.Nlu v)
                   (default (Dm4.nameResult c)
                            (Routing.lastOf "personName" (default [] (entities v))))
                   (default (Dm4.dayResult c)
                            (Routing.lastOf "apptDay" (default [] (entities v))))
                   (default (Dm4.timeResult c)
                            (Routing.lastOf "apptTime" (default [] (entities v))))
                   (topIntent v)
                   (entities v)),
              []))
    /\
    Dm4.step (mkConfig (Dm4.AskWhat Dm4.What.Listen) c) (RECOGNISED value None)
    = Throw TypeError.
Proof.
  intros c value. split; [| reflexivity].
  intros v.
  change (Dm4.step (mkConfig (Dm4.AskWhat Dm4.What.Listen) c) (RECOGNISED value (Some v)))
    with (c1 ← Dm4.recogniseNlu (Some v) c;
          mret (M := Res) (mkConfig (Dm4.AskWhat Dm4.What.Listen) c1, @nil Command)).
  unfold Dm4.recogniseNlu. rewrite fold_scan.
  cbn [Dm4.upd_nameResult Dm4.upd_timeResult Dm4.upd_dayResult mbind Res_bind mret Res_ret].
  destruct (Routing.lastOf "personName" (default [] (entities v))),
    (Routing.lastOf "apptDay" (default [] (entities v))),
    (Routing.lastOf "apptTime" (default [] (entities v))); reflexivity.
Qed.

(** ** Slots that the request has filled (NLU machine) *)

Lemma getPerson_truthy (n p : string) : getPerson n = Some p -> truthy n = true.
Proof. destruct n; [vm_compute; discriminate | reflexivity]. Qed.

Lemma truthy_differs (n : string) : truthy n = true -> String.eqb n "" = false.
Proof. unfold truthy. by intros ->%negb_true_iff. Qed.

Lemma differs_truthy (n : string) : n <> "" -> truthy n = true.
Proof. intros H. unfold truthy. by rewrite (eqb_differs _ _ H). Qed.

Lemma not_whole_day (t : string) :
  isInGrammar t = true -> String.eqb t "whole day" = false.
Proof.
  intros Hg. destruct (String.eqb t "whole day") eqn:E; [| reflexivity].
  apply String.eqb_eq in E. rewrite E in Hg. vm_compute in Hg. discriminate Hg.
Qed.

(** X9: when the request has filled the three slots, the
    machine asks for none of them. With the intent CreateMeeting, a name
    slot that is the key of a person of the grammar, a day slot that is
    not empty and a time slot that passes the grammar test, the machine
    goes from "All right, let's go!" to the confirmation question without
    listening once: it confirms the person and the time and asks whether
    to create the appointment. The day is taken as the request gave it:
    nothing checks that it is a weekday or a day of the grammar. *)
Theorem filled_slots_are_not_asked_for :
  forall (c : Dm4.DMContext) (p : string),
    Dm4.nluIntent c = "CreateMeeting" ->
    getPerson (Dm4.nameResult c) = Some p ->
    Dm4.dayResult c <> "" ->
    isInGrammar (Dm4.timeResult c) = true ->
    Dm4.run (mkConfig (Dm4.AskWhat Dm4.What.ValidInput) c)
            [SPEAK_COMPLETE; SPEAK_COMPLETE; SPEAK_COMPLETE]
    = Ok (mkConfig (Dm4.AskConfirm Dm4.Confirm.PromptForYesNo) (Dm4.set_nameResult p c),
          [SPEAK ("ok, you are meeting with " ++ p);
           SPEAK ("ok, " ++ Dm4.timeResult c);
           SPEAK ("Do you want me to create an appointment with " ++ p ++ " on "
                  ++ Dm4.dayResult c ++ " at " ++ Dm4.timeResult c ++ "?")]).
Proof.
  intros [lr n d t i e] p Hi Hp Hd Ht. cbn in Hi, Hp, Hd, Ht. subst i.
  destruct (person_truthy p (getPerson_known _ _ Hp)) as [Hpt Hpu].
  pose proof (truthy_differs _ (getPerson_truthy _ _ Hp)) as Hn.
  pose proof (eqb_differs _ _ Hd) as Hd'.
  pose proof (isInGrammar_truthy _ Ht) as Htt.
  pose proof (truthy_differs _ Htt) as Ht'.
  pose proof (not_whole_day _ Ht) as Hw.
  pose proof (orElse_truthy p "Unknown" Hpt) as Hpo.
  repeat (crunch; progress rewrite ?Hn, ?Hp, ?Hpt, ?Hpo, ?Hpu, ?Hd', ?Ht', ?Ht, ?Htt, ?Hw).
  crunch. reflexivity.
Qed.

Lemma filled_slots_are_not_asked_for_witness :
  Dm4.run (mkConfig (Dm4.AskWhat Dm4.What.ValidInput)
                    (Dm4.mkContext (Dm4.Nlu (mkNlu "CreateMeeting" None))
                                   "Vlad" "the day after tomorrow" "10" "CreateMeeting" None))
          [SPEAK_COMPLETE; SPEAK_COMPLETE; SPEAK_COMPLETE]
  = Ok (mkConfig (Dm4.AskConfirm Dm4.Confirm.PromptForYesNo)
                 (Dm4.mkContext (Dm4.Nlu (mkNlu "CreateMeeting" None))
                                "Vladislav Maraev" "the day after tomorrow" "10"
                                "CreateMeeting" None),
        [SPEAK "ok, you are meeting with Vladislav Maraev";
         SPEAK "ok, 10";
         SPEAK "Do you want me to create an appointment with Vladislav Maraev on the day after tomorrow at 10?"]).
Proof.
  assert (Hp : getPerson "Vlad" = Some "Vladislav Maraev") by (vm_compute; reflexivity).
  assert (Hd : "the day after tomorrow" <> "") by discriminate.
  assert (Ht : isInGrammar "10" = true) by (vm_compute; reflexivity).
  exact (filled_slots_are_not_asked_for
           (Dm4.mkContext (Dm4.Nlu (mkNlu "CreateMeeting" None))
                          "Vlad" "the day after tomorrow" "10" "CreateMeeting" None)
           "Vladislav Maraev" eq_refl Hp Hd Ht).
Defined.



(** ** The question about a person (NLU machine) *)



(** ** Validation of the name (NLU machine) *)

(** X12: in every child state of AskName of the NLU machine,
    LISTEN_COMPLETE resolves the name from the slot first and from what
    was heard second. A slot that is the key of a person wins, whatever
    was heard. Otherwise a heard key of a person is taken. Otherwise, if
    the slot or the utterance is not empty, the slot becomes "Unknown" and
    the apology names "Unknown", not what was heard. And when the slot is
    not the key of a person and nothing was heard, the step throws a
    TypeError, whether the slot is empty or not. *)
Theorem AskName_resolves_slot_then_utterance :
  forall (ch : Dm4.Name.child) (c : Dm4.DMContext),
    (forall p : string,
        getPerson (Dm4.nameResult c) = Some p ->
        Dm4.step (mkConfig (Dm4.AskName ch) c) LISTEN_COMPLETE
        = Ok (mkConfig (Dm4.AskName Dm4.Name.ValidInput) (Dm4.set_nameResult p c),
              [SPEAK ("ok, you are meeting with " ++ p)]))
    /\
    (forall (h : Hyp) (rest : list Hyp) (p : string),
        getPerson (Dm4.nameResult c) = None ->
        Dm4.lastResult c = Dm4.Hyps (h :: rest) ->
        getPerson (utterance h) = Some p ->
        Dm4.step (mkConfig (Dm4.AskName ch) c) LISTEN_COMPLETE
        = Ok (mkConfig (Dm4.AskName Dm4.Name.ValidInput) (Dm4.set_nameResult p c),
              [SPEAK ("ok, you are meeting with " ++ p)]))
    /\
    (forall (h : Hyp) (rest : list Hyp),
        getPerson (Dm4.nameResult c) = None ->
        Dm4.lastResult c = Dm4.Hyps (h :: rest) ->
        getPerson (utterance h) = None ->
        Dm4.nameResult c <> "" \/ utterance h <> "" ->
        Dm4.step (mkConfig (Dm4.AskName ch) c) LISTEN_COMPLETE
        = Ok (mkConfig (Dm4.AskName Dm4.Name.InvalidInput)
                       (Dm4.set_nameResult "Unknown" c),
              [SPEAK "sorry, but there does not seem to be a person with the name  Unknown in our system."]))
    /\
    (getPerson (Dm4.nameResult c) = None ->
     Dm4.lastResult c = Dm4.Null ->
     Dm4.step (mkConfig (Dm4.AskName ch) c) LISTEN_COMPLETE = Throw TypeError).
Proof.
  intros ch [lr n d t i e].
  rewrite (Dm4_listen_complete Dm4.Person (Dm4.AskName ch) _ eq_refl).
  cbn [Dm4.nameResult Dm4.lastResult Dm4.slotValue Dm4.validateOf Dm4.noInputOf].
  split; [| split; [| split]].
  - intros p Hp.
    destruct (person_truthy p (getPerson_known _ _ Hp)) as [Hpt Hpu].
    pose proof (getPerson_truthy _ _ Hp) as Hn.
    pose proof (orElse_truthy p "Unknown" Hpt) as Hpo.
    repeat (crunch; progress rewrite ?Hn, ?Hp, ?Hpt, ?Hpo, ?Hpu). crunch. reflexivity.
  - intros h rest p Hn -> Hp.
    destruct (person_truthy p (getPerson_known _ _ Hp)) as [Hpt Hpu].
    pose proof (getPerson_truthy _ _ Hp) as Hu.
    pose proof (orElse_truthy p "Unknown" Hpt) as Hpo.
    destruct (truthy n) eqn:Htn;
      repeat (crunch; progress rewrite ?Htn, ?Hu, ?Hn, ?Hp, ?Hpt, ?Hpo, ?Hpu);
      crunch; reflexivity.
  - intros h rest Hn -> Hu Hne.
    destruct (truthy n) eqn:Htn.
    + repeat (crunch; progress rewrite ?Htn, ?Hn, ?Hu). crunch. reflexivity.
    + destruct Hne as [H | H]; [by rewrite (differs_truthy _ H) in Htn|].
      pose proof (differs_truthy _ H) as Htu.
      repeat (crunch; progress rewrite ?Htn, ?Htu, ?Hn, ?Hu). crunch. reflexivity.
  - intros Hn ->.
    destruct (truthy n) eqn:Htn;
      repeat (crunch; progress rewrite ?Htn, ?Hn); crunch; reflexivity.
Qed.

Lemma AskName_resolves_slot_then_utterance_witness :
  Dm4.step (mkConfig (Dm4.AskName Dm4.Name.Listen)
                     (Dm4.mkContext (Dm4.Hyps (heard "Bob")) "" "" "" "CreateMeeting" None))
           LISTEN_COMPLETE
  = Ok (mkConfig (Dm4.AskName Dm4.Name.InvalidInput)
                 (Dm4.mkContext (Dm4.Hyps (heard "Bob")) "Unknown" "" "" "CreateMeeting" None),
        [SPEAK "sorry, but there does not seem to be a person with the name  Unknown in our system."]).
Proof.
  assert (Hn : getPerson "" = None) by (vm_compute; reflexivity).
  assert (Hu : getPerson "Bob" = None) by (vm_compute; reflexivity).
  assert (Hne : "" <> "" \/ "Bob" <> "") by (right; discriminate).
  exact (proj1 (proj2 (proj2 (AskName_resolves_slot_then_utterance
                                Dm4.Name.Listen
                                (Dm4.mkContext (Dm4.Hyps (heard "Bob")) "" "" ""
                                               "CreateMeeting" None))))
               (mkHyp "Bob" (QArith_base.Qmake 9 10)) [] Hn eq_refl Hu Hne).
Defined.

(** ** A time slot that is already filled (NLU machine) *)

(** X13: in the NLU machine a time slot that is not empty is never
    replaced by what is heard. In every child state of AskTime, with a
    recognised top utterance [u], LISTEN_COMPLETE accepts the slot as it
    is, and confirms it, as soon as the slot or [u] passes the grammar
    test; when neither does, the apology quotes [u] and the slot stays as
    it is. *)
Theorem filled_time_slot_is_never_replaced :
  forall (ch : Dm4.Time.child) (c : Dm4.DMContext) (h : Hyp) (rest : list Hyp),
    Dm4.lastResult c = Dm4.Hyps (h :: rest) ->
    Dm4.timeResult c <> "" ->
    (isInGrammar (Dm4.timeResult c) = true \/ isInGrammar (utterance h) = true ->
     Dm4.step (mkConfig (Dm4.AskTime ch) c) LISTEN_COMPLETE
     = Ok (mkConfig (Dm4.AskTime Dm4.Time.ValidInput) c,
           [SPEAK ("ok, " ++ Dm4.timeResult c)]))
    /\
    (isInGrammar (Dm4.timeResult c) = false -> isInGrammar (utterance h) = false ->
     Dm4.step (mkConfig (Dm4.AskTime ch) c) LISTEN_COMPLETE
     = Ok (mkConfig (Dm4.AskTime Dm4.Time.InvalidInput) c,
           [SPEAK ("sorry, but " ++ utterance h
                   ++ " does not seem to be a bookable time in our system.")])).
Proof.
  intros ch [lr n d t i e] h rest HL Ht. cbn in HL, Ht. subst lr.
  rewrite (Dm4_listen_complete Dm4.TimeOfDay (Dm4.AskTime ch) _ eq_refl).
  cbn [Dm4.timeResult Dm4.slotValue Dm4.validateOf Dm4.noInputOf].
  pose proof (differs_truthy _ Ht) as Htt.
  split.
  - intros [Hg | Hg].
    + repeat (crunch; progress rewrite ?Htt, ?Hg). crunch. reflexivity.
    + destruct (isInGrammar t) eqn:Hgt;
        repeat (crunch; progress rewrite ?Htt, ?Hgt, ?Hg); crunch; reflexivity.
  - intros Hgt Hg. repeat (crunch; progress rewrite ?Htt, ?Hgt, ?Hg). crunch. reflexivity.
Qed.

Lemma filled_time_slot_is_never_replaced_witness :
  Dm4.step (mkConfig (Dm4.AskTime Dm4.Time.Listen)
                     (Dm4.mkContext (Dm4.Hyps (heard "11")) "Vladislav Maraev" "monday"
                                    "half past three" "CreateMeeting" None))
           LISTEN_COMPLETE
  = Ok (mkConfig (Dm4.AskTime Dm4.Time.ValidInput)
                 (Dm4.mkContext (Dm4.Hyps (heard "11")) "Vladislav Maraev" "monday"
                                "half past three" "CreateMeeting" None),
        [SPEAK "ok, half past three"]).
Proof.
  assert (Ht : "half past three" <> "") by discriminate.
  assert (Hg : isInGrammar "half past three" = true \/ isInGrammar "11" = true)
    by (right; vm_compute; reflexivity).
  exact (proj1 (filled_time_slot_is_never_replaced
                  Dm4.Time.Listen
                  (Dm4.mkContext (Dm4.Hyps (heard "11")) "Vladislav Maraev" "monday"
                                 "half past three" "CreateMeeting" None)
                  (mkHyp "11" (QArith_base.Qmake 9 10)) [] eq_refl Ht) Hg).
Defined.

(** ** The slots of the grammar machine hold what was validated *)

#[local] Arguments isInGrammar : simpl never.
#[local] Arguments validateDay : simpl never.
#[local] Arguments isYes : simpl never.
#[local] Arguments isNo : simpl never.
#[local] Arguments getPerson : simpl never.
#[local] Arguments toLowerCase : simpl never.
#[local] Arguments String.append : simpl never.
#[local] Arguments String.eqb : simpl never.
#[local] Arguments orElse : simpl never.
#[local] Arguments truthy : simpl never.

(** The members of a list written out. *)
Ltac members H :=
  repeat (apply elem_of_cons in H as [H | H]; [try subst |]);
  try (apply elem_of_nil in H; contradiction).

Lemma Dm_entry_keeps_slots (s : Dm.State) (c c2 : Dm.DMContext) (out : list Command) :
  Dm.entry s c = Ok (c2, out) ->
  s <> Dm.AskName Dm.Name.ValidInput -> s <> Dm.AskDay Dm.Day.ValidInput ->
  s <> Dm.AskTime Dm.Time.ValidInput -> s <> Dm.AskFullDay Dm.YesNo.WholeDay ->
  s <> Dm.AskConfirm Dm.YesNo.WholeDay ->
  c2 = c.
Proof.
  intros H H1 H2 H3 H4 H5. destruct c as [l n d t].
  destruct s as [| | |ch|ch|ch|ch|ch|]; try destruct ch; try congruence;
    cbn in H; try (injection H as <- _; reflexivity);
    destruct l as [[|h r]|]; cbn in H; try discriminate H;
    injection H as <- _; reflexivity.
Qed.

Lemma Dm_on_keeps (s : Dm.State) (ev : Event) (c : Dm.DMContext)
      (tr : Transition Dm.State Dm.DMContext) (c1 : Dm.DMContext) :
  Booking.filled s c -> tr ∈ on Dm.dmMachine s ev ->
  guard tr c = Ok true -> actions tr c = Ok c1 ->
  match target tr with
  | Some s' => forall c2 out, entry Dm.dmMachine s' c1 = Ok (c2, out) -> Booking.filled s' c2
  | None => Booking.filled s c1
  end.
Proof.
  destruct c as [l n d t]. intros HJ Hin Hg Ha.
  destruct s as [| | |ch|ch|ch|ch|ch|]; try destruct ch; destruct ev;
    cbn in Hin; members Hin; cbn in Hg, Ha |- *;
    injection Ha as <-;
    try (intros c2 out He; injection He as <- _);
    cbn in HJ |- *; try exact I; try tauto.
  destruct HJ as [[= ->] | HJ]; [discriminate Hg | exact HJ].
Qed.

Lemma Dm_always_keeps (s : Dm.State) (c : Dm.DMContext) (g : Guard Dm.DMContext)
      (s' : Dm.State) (c2 : Dm.DMContext) (out : list Command) :
  Booking.filled s c -> (g, s') ∈ always Dm.dmMachine s -> g c = Ok true ->
  entry Dm.dmMachine s' c = Ok (c2, out) -> Booking.filled s' c2.
Proof.
  destruct c as [l n d t]. intros HJ Hin Hg He.
  destruct s as [| | |ch|ch|ch|ch|ch|]; try destruct ch;
    cbn in Hin; members Hin; injection Hin as -> ->;
    destruct l as [[|h r]|]; try discriminate Hg;
    cbn in Hg, He; injection He as <- _; cbn in HJ |- *; try exact I; try tauto.
  - (* AskName: the person found, or "Unknown" *)
    destruct (getPerson (utterance h)) as [p|] eqn:Hp; [right | left; reflexivity].
    apply getPerson_known in Hp. destruct (person_truthy _ Hp) as [Ht _].
    exists p. split; [| exact Hp]. unfold orElse. by rewrite Ht.
  - (* AskDay: a weekday of the grammar *)
    destruct (validateDay (utterance h)) eqn:Hd; [| discriminate Hg].
    injection Hg as Hg. split; [exact HJ|].
    exists (utterance h). split.
    + by rewrite (orElse_truthy _ _ (validateDay_truthy _ Hd)).
    + by apply weekday_bookable.
  - (* AskFullDay: the whole day *)
    split; [tauto|]. split; [tauto|]. exists "whole day". split; [reflexivity | by left].
  - (* AskTime: an utterance the grammar test accepts *)
    injection Hg as Hg. split; [tauto|]. split; [tauto|].
    exists (utterance h). split.
    + by rewrite (orElse_truthy _ _ (isInGrammar_truthy _ Hg)).
    + by right.
Qed.

Lemma Dm_run_filled (evs : list Event) (s : Dm.State) (c : Dm.DMContext)
      (cfg : Config Dm.State Dm.DMContext) (out : list Command) :
  Booking.filled s c -> Dm.run (mkConfig s c) evs = Ok (cfg, out) ->
  Booking.filled (st cfg) (ctx cfg).
Proof.
  apply (run_keeps Dm.dmMachine Booking.filled (fun _ => True)).
  - intros s0 ev c0 tr c1 _. apply Dm_on_keeps.
  - apply Dm_always_keeps.
  - apply Forall_forall. intros ? _. exact I.
Qed.

(** X14: whenever the grammar machine, run from its start on any
    sequence of events, is in AskConfirm or in Done, the person slot holds
    one of the three persons of the grammar, the day slot an utterance of
    "monday" or "tuesday" (in any letter case), and the time slot
    "whole day" or an utterance that the grammar test accepts. *)
Theorem booking_holds_validated_slots :
  forall (evs : list Event) (cfg : Config Dm.State Dm.DMContext) (out : list Command),
    Dm.run Dm.initial evs = Ok (cfg, out) ->
    Booking.confirming (st cfg) = true ->
    Booking.knownPerson (Dm.nameResult (ctx cfg)) /\
    Booking.bookableDay (Dm.dayResult (ctx cfg)) /\
    Booking.bookableTime (Dm.timeResult (ctx cfg)).
Proof.
  intros evs cfg out Hrun Hc.
  pose proof (Dm_run_filled evs Dm.Prepare Dm.initialContext cfg out I Hrun) as HJ.
  destruct cfg as [s c]. cbn [st ctx] in *.
  destruct s as [| | |ch|ch|ch|ch|ch|]; try discriminate Hc; exact HJ.
Qed.

Lemma booking_holds_validated_slots_witness :
  Dm.run Dm.initial (session ["aya"; "Tuesday"; "no"; "11"])
  = Ok (mkConfig (Dm.AskConfirm Dm.YesNo.PromptForYesNo)
                 (Dm.mkContext (Some (heard "11")) (Some "Nayat Astaiza Soriano")
                               (Some "Tuesday") (Some "11")),
        [SPEAK "Hi! Let's create an appointment.";
         SPEAK "Who are you meeting with?"; LISTEN;
         SPEAK "ok, you are meeting with Nayat Astaiza Soriano";
         SPEAK "On which day is your meeting?"; LISTEN;
         SPEAK "ok, your meeting is on Tuesday";
         SPEAK "Will it take the whole day?"; LISTEN;
         SPEAK "What time is your meeting?"; LISTEN;
         SPEAK "ok, 11";
         SPEAK "Do you want me to create an appointment with Nayat Astaiza Soriano on Tuesday at 11?"])
  /\
  Booking.knownPerson (Some "Nayat Astaiza Soriano") /\
  Booking.bookableDay (Some "Tuesday") /\
  Booking.bookableTime (Some "11").
Proof.
  assert (Hrun : Dm.run Dm.initial (session ["aya"; "Tuesday"; "no"; "11"])
                 = Ok (mkConfig (Dm.AskConfirm Dm.YesNo.PromptForYesNo)
                                (Dm.mkContext (Some (heard "11"))
                                              (Some "Nayat Astaiza Soriano")
                                              (Some "Tuesday") (Some "11")),
                       [SPEAK "Hi! Let's create an appointment.";
                        SPEAK "Who are you meeting with?"; LISTEN;
                        SPEAK "ok, you are meeting with Nayat Astaiza Soriano";
                        SPEAK "On which day is your meeting?"; LISTEN;
                        SPEAK "ok, your meeting is on Tuesday";
                        SPEAK "Will it take the whole day?"; LISTEN;
                        SPEAK "What time is your meeting?"; LISTEN;
                        SPEAK "ok, 11";
                        SPEAK "Do you want me to create an appointment with Nayat Astaiza Soriano on Tuesday at 11?"])).
  { vm_compute. reflexivity. }
  split; [exact Hrun|].
  exact (booking_holds_validated_slots _ _ _ Hrun eq_refl).
Defined.

(** ** States that are declared and never entered *)

(** X15: the states InvalidYesNo (of AskFullDay and AskConfirm),
    InvalidTime and AskConfirm.WholeDay are targets of no transition: a
    run of either machine that does not start in one of them never is in
    one of them. *)
Theorem unused_states_never_entered :
  (forall (evs : list Event) (s : Dm.State) (c : Dm.DMContext)
          (cfg : Config Dm.State Dm.DMContext) (out : list Command),
      Booking.unused s = false ->
      Dm.run (mkConfig s c) evs = Ok (cfg, out) ->
      Booking.unused (st cfg) = false)
  /\
  (forall (evs : list Event) (s : Dm4.State) (c : Dm4.DMContext)
          (cfg : Config Dm4.State Dm4.DMContext) (out : list Command),
      Routing.unused s = false ->
      Dm4.run (mkConfig s c) evs = Ok (cfg, out) ->
      Routing.unused (st cfg) = false).
Proof.
  split.
  - intros evs s c cfg out Hs Hrun.
    refine (run_keeps Dm.dmMachine (fun s _ => Booking.unused s = false) (fun _ => True)
                      _ _ evs s c cfg out _ Hs Hrun).
    + intros s0 ev c0 tr c1 _ HJ Hin _ _.
      destruct s0 as [| | |ch|ch|ch|ch|ch|]; try destruct ch; try discriminate HJ;
        destruct ev; cbn in Hin; members Hin; cbn; auto.
    + intros s0 c0 g s' c2 out0 HJ Hin _ _.
      destruct s0 as [| | |ch|ch|ch|ch|ch|]; try destruct ch; try discriminate HJ;
        cbn in Hin; members Hin; injection Hin as _ ->; reflexivity.
    + apply Forall_forall. intros ? _. exact I.
  - intros evs s c cfg out Hs Hrun.
    refine (run_keeps Dm4.dmMachine (fun s _ => Routing.unused s = false) (fun _ => True)
                      _ _ evs s c cfg out _ Hs Hrun).
    + intros s0 ev c0 tr c1 _ HJ Hin _ _.
      destruct s0 as [| | |ch| |ch|ch|ch|ch|ch| |]; try destruct ch; try discriminate HJ;
        destruct ev; cbn in Hin; members Hin; cbn; auto.
    + intros s0 c0 g s' c2 out0 HJ Hin _ _.
      destruct s0 as [| | |ch| |ch|ch|ch|ch|ch| |]; try destruct ch; try discriminate HJ;
        cbn in Hin; members Hin; injection Hin as _ ->; reflexivity.
    + apply Forall_forall. intros ? _. exact I.
Qed.

Lemma unused_states_never_entered_witness :
  Booking.unused (Dm.AskFullDay Dm.YesNo.Listen) = false /\
  Dm.run (mkConfig (Dm.AskFullDay Dm.YesNo.Listen) Dm.initialContext)
         [RECOGNISED (heard "maybe") None; LISTEN_COMPLETE]
  = Ok (mkConfig (Dm.AskFullDay Dm.YesNo.InvalidInput)
                 (Dm.mkContext (Some (heard "maybe")) None None None),
        [SPEAK "sorry, but I heard maybe. Please answer with yes or no."]) /\
  Booking.unused (Dm.AskFullDay Dm.YesNo.InvalidInput) = false.
Proof.
  assert (Hrun : Dm.run (mkConfig (Dm.AskFullDay Dm.YesNo.Listen) Dm.initialContext)
                        [RECOGNISED (heard "maybe") None; LISTEN_COMPLETE]
                 = Ok (mkConfig (Dm.AskFullDay Dm.YesNo.InvalidInput)
                                (Dm.mkContext (Some (heard "maybe")) None None None),
                       [SPEAK "sorry, but I heard maybe. Please answer with yes or no."])).
  { vm_compute. reflexivity. }
  split; [reflexivity|]. split; [exact Hrun|].
  exact (proj1 unused_states_never_entered _ (Dm.AskFullDay Dm.YesNo.Listen) _ _ _ eq_refl Hrun).
Defined.

(** ** At most one command in a step *)

Lemma Dm_entry_quiet (s : Dm.State) (c c' : Dm.DMContext) (out : list Command) :
  entry Dm.dmMachine s c = Ok (c', out) ->
  length out <= 1 /\ (always Dm.dmMachine s <> [] -> out = []).
Proof.
  destruct c as [l n d t]. intros H.
  destruct s as [| | |ch|ch|ch|ch|ch|]; try destruct ch; cbn in H;
    try (destruct l as [[|h r]|]; cbn in H; try discriminate H);
    injection H as _ <-; (split; [cbn; lia | cbn; congruence]).
Qed.

Lemma Dm4_entry_quiet (s : Dm4.State) (c c' : Dm4.DMContext) (out : list Command) :
  entry Dm4.dmMachine s c = Ok (c', out) ->
  length out <= 1 /\ (always Dm4.dmMachine s <> [] -> out = []).
Proof.
  assert (Hsay : forall c0 u, Dm4.say c0 u = Ok (c', out) -> length out <= 1).
  { intros c0 u H. injection H as _ <-. cbn. lia. }
  assert (Hheard : forall c0 pre post, Dm4.sayHeard c0 pre post = Ok (c', out) -> length out <= 1).
  { intros c0 pre post H. unfold Dm4.sayHeard in H.
    destruct (Dm4.topUtterance c0) as [u| |]; try discriminate H. exact (Hsay _ _ H). }
  intros H.
  destruct s as [| | |ch| |ch|ch|ch|ch|ch| |]; try destruct ch;
    (split; [| cbn; try congruence]);
    cbn [entry Dm4.dmMachine Dm4.entry] in H;
    try (first [exact (Hsay _ _ H) | exact (Hheard _ _ _ H)]);
    try (injection H as _ <-; cbn; (lia || reflexivity)).
  - unfold mbind, Res_bind in H.
    destruct (Dm4.resolveName c) as [c0| |]; try discriminate H.
    injection H as _ <-. cbn. lia.
  - intros _. unfold mbind, Res_bind in H.
    destruct (Dm4.resolveName c) as [c0| |]; try discriminate H.
    injection H as _ <-. reflexivity.
  - unfold mbind, Res_bind in H.
    destruct (Dm4.topUtterance c) as [u| |]; try discriminate H. exact (Hsay _ _ H).
  - unfold mbind, Res_bind in H.
    destruct (Dm4.resolveTime c) as [c0| |]; try discriminate H. exact (Hsay _ _ H).
Qed.

(** X16: in one step either machine sends at most one command
    to the speech actor: it never asks it to speak twice, or to speak and
    to listen, at the same time. *)
Theorem step_sends_at_most_one_command :
  (forall (cfg cfg' : Config Dm.State Dm.DMContext) (ev : Event) (out : list Command),
      Dm.step cfg ev = Ok (cfg', out) -> length out <= 1)
  /\
  (forall (cfg cfg' : Config Dm4.State Dm4.DMContext) (ev : Event) (out : list Command),
      Dm4.step cfg ev = Ok (cfg', out) -> length out <= 1).
Proof.
  split.
  - intros cfg cfg' ev out. apply (step_quiet Dm.dmMachine Dm_entry_quiet).
  - intros cfg cfg' ev out. apply (step_quiet Dm4.dmMachine Dm4_entry_quiet).
Qed.

Lemma step_sends_at_most_one_command_witness :
  Dm4.step (mkConfig (Dm4.AskName Dm4.Name.ValidInput)
                     (Dm4.mkContext (Dm4.Hyps (heard "vlad")) "Vladislav Maraev" "friday"
                                    "10" "CreateMeeting" None))
           SPEAK_COMPLETE
  = Ok (mkConfig (Dm4.AskTime Dm4.Time.ValidInput)
                 (Dm4.mkContext (Dm4.Hyps (heard "vlad")) "Vladislav Maraev" "friday"
                                "10" "CreateMeeting" None),
        [SPEAK "ok, 10"])
  /\ length [SPEAK "ok, 10"] <= 1.
Proof.
  assert (Hstep : Dm4.step (mkConfig (Dm4.AskName Dm4.Name.ValidInput)
                     (Dm4.mkContext (Dm4.Hyps (heard "vlad")) "Vladislav Maraev" "friday"
                                    "10" "CreateMeeting" None))
                     SPEAK_COMPLETE
                  = Ok (mkConfig (Dm4.AskTime Dm4.Time.ValidInput)
                          (Dm4.mkContext (Dm4.Hyps (heard "vlad")) "Vladislav Maraev"
                                         "friday" "10" "CreateMeeting" None),
                        [SPEAK "ok, 10"])).
  { vm_compute. reflexivity. }
  split; [exact Hstep|].
  exact (proj2 step_sends_at_most_one_command _ _ _ _ Hstep).
Defined.

(** ** Steps that neither throw nor fail to settle *)
Section Safe.

Context {State Ctx Event Command : Type}.
Variable M : Machine State Ctx Event Command.
Variable rank : State -> nat.
Variable J : State -> Ctx -> Prop.
Variable allowed : Event -> Prop.

Hypothesis on_safe : forall s ev c tr,
    allowed ev -> J s c -> tr ∈ on M s ev ->
    (exists b, guard tr c = Ok b) /\
    (guard tr c = Ok true ->
     exists c1, actions tr c = Ok c1 /\
                match target tr with
                | Some s' => exists c2 out, entry M s' c1 = Ok (c2, out) /\ J s' c2
                | None => J s c1
                end).
Hypothesis always_safe : forall s c g s',
    J s c -> (g, s') ∈ always M s ->
    (exists b, g c = Ok b) /\
    (g c = Ok true ->
     rank s' < rank s /\ exists c2 out, entry M s' c = Ok (c2, out) /\ J s' c2).
Hypothesis rank_bound : forall s, rank s < bound.

Lemma select_safe {T} (guardOf : T -> Guard Ctx) (ts : list T) (c : Ctx) :
  (forall t, t ∈ ts -> exists b, guardOf t c = Ok b) ->
  exists r, select guardOf ts c = Ok r.
Proof.
  induction ts as [|t ts IH]; intros H; simpl; [by eexists|].
  destruct (H t (list_elem_of_here _ _)) as [b ->]. simpl.
  destruct b; [by eexists|].
  apply IH. intros t' Ht'. apply H. by apply list_elem_of_further.
Qed.

Lemma settle_safe (fuel : nat) :
  forall s c out0,
    rank s < fuel -> J s c ->
    exists cfg out, settle M fuel s c out0 = Ok (cfg, out) /\ J (st cfg) (ctx cfg).
Proof.
  induction fuel as [|fuel IH]; intros s c out0 Hr HJ; [lia|].
  cbn [settle].
  destruct (select_safe fst (always M s) c) as [r Hsel].
  { intros [g s'] Hin. exact (proj1 (always_safe s c g s' HJ Hin)). }
  rewrite Hsel. cbn [mbind Res_bind mret Res_ret].
  destruct r as [[g s']|]; [| by exists (mkConfig s c), out0].
  pose proof (select_elem _ _ _ _ Hsel) as Hin.
  pose proof (select_holds _ _ _ _ Hsel) as Hg. cbn [fst] in Hg.
  destruct (proj2 (always_safe s c g s' HJ Hin) Hg) as (Hlt & c2 & out2 & He & HJ2).
  rewrite He. cbn [mbind Res_bind mret Res_ret].
  apply IH; [lia | exact HJ2].
Qed.

Lemma step_safe (s : State) (c : Ctx) (ev : Event) :
  allowed ev -> J s c ->
  exists cfg out, step M (mkConfig s c) ev = Ok (cfg, out) /\ J (st cfg) (ctx cfg).
Proof.
  intros Hev HJ. unfold step. cbn [st ctx].
  destruct (select_safe guard (on M s ev) c) as [r Hsel].
  { intros tr Hin. exact (proj1 (on_safe s ev c tr Hev HJ Hin)). }
  rewrite Hsel. cbn [mbind Res_bind mret Res_ret].
  destruct r as [tr|]; [| by exists (mkConfig s c), []].
  pose proof (select_elem _ _ _ _ Hsel) as Hin.
  pose proof (select_holds _ _ _ _ Hsel) as Hg.
  destruct (proj2 (on_safe s ev c tr Hev HJ Hin) Hg) as (c1 & Ha & Ht).
  rewrite Ha. cbn [mbind Res_bind mret Res_ret].
  destruct (target tr) as [s'|].
  - destruct Ht as (c2 & out2 & He & HJ2). unfold arrive. rewrite He.
    cbn [mbind Res_bind mret Res_ret]. apply settle_safe; [apply rank_bound | exact HJ2].
  - apply settle_safe; [apply rank_bound | exact Ht].
Qed.

Lemma run_safe (evs : list Event) :
  forall s c,
    Forall allowed evs -> J s c ->
    exists cfg out, run M (mkConfig s c) evs = Ok (cfg, out) /\ J (st cfg) (ctx cfg).
Proof.
  induction evs as [|ev evs IH]; intros s c Hall HJ; cbn [run].
  - by exists (mkConfig s c), [].
  - apply Forall_cons in Hall as [Hev Hall].
    destruct (step_safe s c ev Hev HJ) as ([s1 c1] & o1 & -> & HJ1).
    cbn [mbind Res_bind mret Res_ret st ctx] in *.
    destruct (IH s1 c1 Hall HJ1) as (cfg & o2 & -> & HJ2).
    cbn [mbind Res_bind mret Res_ret]. by exists cfg, (o1 ++ o2).
Qed.

End Safe.

(** ** The grammar machine throws only on an empty recognition result *)

Lemma Dm_on_safe (s : Dm.State) (ev : Event) (c : Dm.DMContext)
      (tr : Transition Dm.State Dm.DMContext) :
  Recogniser.nonEmpty ev -> Recogniser.readable s c -> tr ∈ on Dm.dmMachine s ev ->
  (exists b, guard tr c = Ok b) /\
  (guard tr c = Ok true ->
   exists c1, actions tr c = Ok c1 /\
              match target tr with
              | Some s' => exists c2 out, entry Dm.dmMachine s' c1 = Ok (c2, out) /\
                                          Recogniser.readable s' c2
              | None => Recogniser.readable s c1
              end).
Proof.
  destruct c as [l n d t]. intros Hev [HJ1 HJ2] Hin.
  destruct s as [| | |ch|ch|ch|ch|ch|]; try destruct ch; destruct ev;
    cbn in Hin; members Hin;
    (split; [by eexists |]); intros Hg; eexists; (split; [reflexivity |]);
    cbn [target goto gotoIf assign Dm.toAskName Dm.toAskDay Dm.toAskFullDay
         Dm.toAskTime Dm.toAskConfirm];
    try (do 2 eexists; split; [reflexivity |]);
    unfold Recogniser.readable; cbn in *;
    (split; [try assumption; try discriminate | try discriminate; try (intros; assumption)]);
    try (intros _; destruct l; [discriminate | discriminate Hg]);
    try (intros [= ->]; apply Hev; reflexivity).
Qed.

Lemma Dm_always_safe (s : Dm.State) (c : Dm.DMContext) (g : Guard Dm.DMContext)
      (s' : Dm.State) :
  Recogniser.readable s c -> (g, s') ∈ always Dm.dmMachine s ->
  (exists b, g c = Ok b) /\
  (g c = Ok true ->
   Dm.rank s' < Dm.rank s /\
   exists c2 out, entry Dm.dmMachine s' c = Ok (c2, out) /\ Recogniser.readable s' c2).
Proof.
  destruct c as [l n d t]. intros [HJ1 HJ2] Hin.
  destruct s as [| | |ch|ch|ch|ch|ch|]; try destruct ch;
    cbn in Hin; members Hin; injection Hin as -> ->;
    cbn in HJ1, HJ2; specialize (HJ2 eq_refl);
    destruct l as [[|h r]|]; try congruence;
    (split; [cbn; repeat match goal with
                         | |- context [if ?b then _ else _] => destruct b
                         end; by eexists |]);
    intros _; (split; [cbn; lia |]);
    do 2 eexists; (split; [reflexivity |]);
    unfold Recogniser.readable; cbn; split; discriminate.
Qed.

(** X17: as long as every recognition event carries at least one
    hypothesis, the grammar machine started afresh takes every sequence
    of events without throwing, each step coming to rest in a state; a
    recognition event with an empty list of hypotheses, received while
    the machine listens, makes the next LISTEN_COMPLETE throw a
    TypeError in each of the five slot-filling steps. *)
Theorem grammar_machine_throws_only_on_empty_result :
  (forall evs : list Event,
      Forall Recogniser.nonEmpty evs ->
      exists cfg out, Dm.run Dm.initial evs = Ok (cfg, out))
  /\
  (forall (sl : Dm.Slot) (c : Dm.DMContext) (nlu : option NluValue),
      Dm.run (mkConfig (Dm.listenOf sl) c) [RECOGNISED [] nlu; LISTEN_COMPLETE]
      = Throw TypeError).
Proof.
  split.
  - intros evs Hall.
    destruct (run_safe Dm.dmMachine Dm.rank Recogniser.readable Recogniser.nonEmpty
                       Dm_on_safe Dm_always_safe) with (evs := evs)
                       (s := Dm.Prepare) (c := Dm.initialContext)
      as (cfg & out & Hrun & _).
    + intros s. destruct s as [| | |ch|ch|ch|ch|ch|]; try destruct ch; vm_compute; lia.
    + exact Hall.
    + split; [discriminate | intros H; discriminate H].
    + by exists cfg, out.
  - intros sl [l n d t] nlu. destruct sl; reflexivity.
Qed.

Lemma grammar_machine_throws_only_on_empty_result_witness :
  Forall Recogniser.nonEmpty (session ["aya"; "someday"]) /\
  exists cfg out, Dm.run Dm.initial (session ["aya"; "someday"]) = Ok (cfg, out).
Proof.
  assert (Hall : Forall Recogniser.nonEmpty (session ["aya"; "someday"])).
  { repeat constructor; discriminate. }
  split; [exact Hall|].
  exact (proj1 grammar_machine_throws_only_on_empty_result _ Hall).
Defined.
